(** * Kapacitor diagnostic service: a shallow embedding of
      [services/diagnostic/service.go] and its properties.

    The Go file defines a factory ([service]) and one handler type per
    subsystem.  Every handler is a struct with a single field [l] holding a
    zap logger; the methods either derive a new handler ([With...Context]) or
    hand one entry to the logger.

    Go pointers are modelled by a heap of objects ([gmap loc object]); the
    entries handed to the logging backend are collected, in call order, in the
    [out] component of the state.  A method is a computation in a small
    state-and-panic monad. *)

From Stdlib Require Import ZArith.
From stdpp Require Import base option list strings gmap.
From Equations Require Import Equations.

Local Open Scope string_scope.
Local Open Scope list_scope.

(** ** Imported packages, as far as the file uses them *)

(** [keyvalue.T]: a struct of two strings. *)
Module keyvalue.
Record T := KV { Key : string; Value : string }.
End keyvalue.

(** The builtin [error] interface: [None] is the nil error, [Some d] an error
    whose [Error()] text is [d]. *)
Definition error := option string.

Module time.
(** An instant, in nanoseconds since the epoch. *)
Definition Time := Z.
(** [time.Duration] is an [int64] count of nanoseconds. *)
Definition Duration := Z.
End time.

(** [alert.Level] reaches the logger only as a [fmt.Stringer]; a level is kept
    as the text its [String()] method returns. *)
Module alert.
Definition Level := string.
End alert.

(** [*models.Row] reaches the logger only through [fmt.Sprintf("%v", rows)]; a
    row is kept as that text. *)
Module models.
Definition Row := string.
End models.

Module fmt.
Definition Sprintf_v (rows : models.Row) : string := rows.
End fmt.

Module zapcore.
Inductive Level := DebugLevel | InfoLevel | WarnLevel | ErrorLevel.
End zapcore.

(** [zap]: fields and loggers.  A field is kept as the constructor call that
    built it; [Unknown] is the zero value [zapcore.Field{}] that [make] puts
    into a new slice. *)
Module zap.
Inductive Field :=
| Unknown
| String (key val : string)
| Error (err : error)
| Int (key : string) (val : Z)
| Int64 (key : string) (val : Z)
| Bool (key : string) (val : bool)
| Time (key : string) (val : time.Time)
| Duration (key : string) (val : time.Duration)
| Stringer (key : string) (val : string).

(** Modelled from the spec: the zap logger is the external logging backend,
    known by its interface only (section 6): [bind] returns a derived handle
    with the given fields added after the ones already bound and never
    changes the receiver; [emit] writes one entry.  A logger is therefore an
    immutable value, the sequence of its bound fields. *)
Record Logger := mkLogger { context : list Field }.

(** [zap.NewExample()]: no bound field, every level enabled. *)
Definition NewExample : Logger := mkLogger [].

(** What one call of [Debug], [Info], [Warn] or [Error] hands to the sink:
    the level, the message, the fields bound to the logger and the fields
    of the call. *)
Record Entry := mkEntry {
  level : zapcore.Level;
  message : string;
  bound : list Field;
  fields : list Field
}.

(** The fields of an entry in the order they are written: bound ones
    first. *)
Definition all_fields (e : Entry) : list Field := bound e ++ fields e.
End zap.

Global Instance Field_eq_dec : EqDecision zap.Field.
Proof. solve_decision. Defined.

(** ** State, heap and the monad of methods *)

Definition loc := positive.

(** The struct types of the file.  [AlertHandler] is only named, by
    [NewAlertHandler]; like the others it is taken to be a struct holding a
    logger. *)
Inductive HandlerType :=
| AlertServiceHandler | KapacitorHandler | AlertaHandler | HipChatHandler
| HTTPDHandler | ReportingHandler | PagerDutyHandler | SlackHandler
| StorageHandler | TaskStoreHandler | VictorOpsHandler | UDFServiceHandler
| AlertHandler.

Global Instance HandlerType_eq_dec : EqDecision HandlerType.
Proof. solve_decision. Defined.

(** A heap object: [service{logger}] or [<ty>{l}]. *)
Inductive object :=
| service (logger : zap.Logger)
| handler (ty : HandlerType) (l : zap.Logger).

Record state := mkState {
  heap : gmap loc object;
  out : list zap.Entry
}.

(** A computation either panics ([None]) or returns a value and a state. *)
Definition M (A : Type) : Type := state → option (A * state).

Global Instance M_ret : MRet M := λ A a σ, Some (a, σ).
Global Instance M_bind : MBind M := λ A B k m σ,
  match m σ with
  | Some (a, σ') => k a σ'
  | None => None
  end.
Definition panic {A} : M A := λ _, None.

(** [&T{...}]: a new object at an address not in use. *)
Definition new (o : object) : M loc :=
  λ σ, let p := fresh (dom (heap σ)) in
       Some (p, mkState (<[p := o]> (heap σ)) (out σ)).

(** [h.l] for a receiver [h *<ty>]; a nil or dangling receiver panics. *)
Definition load_l (ty : HandlerType) (h : loc) : M zap.Logger :=
  λ σ, match heap σ !! h with
       | Some (handler ty' l) => if decide (ty' = ty) then Some (l, σ) else None
       | _ => None
       end.

(** [s.logger] for a receiver [s *service]. *)
Definition load_logger (s : loc) : M zap.Logger :=
  λ σ, match heap σ !! s with
       | Some (service logger) => Some (logger, σ)
       | _ => None
       end.

(** Slices: [s[i]] and [s[i] = x] panic out of range; [append(s, x)];
    [make([]zapcore.Field, n)]. *)
Definition index {A} (s : list A) (i : nat) : M A :=
  match s !! i with
  | Some a => mret a
  | None => panic
  end.

Definition store {A} (s : list A) (i : nat) (x : A) : M (list A) :=
  if decide (i < length s) then mret (<[i := x]> s) else panic.

Definition append {A} (s : list A) (x : A) : list A := s ++ [x].

Definition make (n : nat) : list zap.Field := replicate n zap.Unknown.

(** The methods of [*zap.Logger] that the file calls. *)
Module Logger.
(** [log.With(fields...)]: the spec's [bind]. *)
Definition With (log : zap.Logger) (fields : list zap.Field) : zap.Logger :=
  zap.mkLogger (zap.context log ++ fields).

(** The spec's [emit]: one entry is appended to the sink. *)
Definition emit (lvl : zapcore.Level) (log : zap.Logger) (msg : string)
    (fields : list zap.Field) : M unit :=
  λ σ, Some (tt, mkState (heap σ)
                   (out σ ++ [zap.mkEntry lvl msg (zap.context log) fields])).

Definition Debug := emit zapcore.DebugLevel.
Definition Info := emit zapcore.InfoLevel.
Definition Warn := emit zapcore.WarnLevel.
Definition Error := emit zapcore.ErrorLevel.
End Logger.

(** ** The factory *)

Definition NewService : M loc :=
  let l := zap.NewExample in
  new (service l).

Module service.
Definition NewVictorOpsHandler (s : loc) : M loc :=
  logger ← load_logger s;
  new (handler VictorOpsHandler
         (Logger.With logger [zap.String "service" "victorops"])).

Definition NewSlackHandler (s : loc) : M loc :=
  logger ← load_logger s;
  new (handler SlackHandler
         (Logger.With logger [zap.String "service" "slack"])).

Definition NewTaskStoreHandler (s : loc) : M loc :=
  logger ← load_logger s;
  new (handler TaskStoreHandler
         (Logger.With logger [zap.String "service" "task_store"])).

Definition NewReportingHandler (s : loc) : M loc :=
  logger ← load_logger s;
  new (handler ReportingHandler
         (Logger.With logger [zap.String "service" "reporting"])).

Definition NewStorageHandler (s : loc) : M loc :=
  logger ← load_logger s;
  new (handler StorageHandler
         (Logger.With logger [zap.String "service" "storage"])).

Definition NewHTTPDHandler (s : loc) : M loc :=
  logger ← load_logger s;
  new (handler HTTPDHandler
         (Logger.With logger [zap.String "service" "http"])).

Definition NewAlertaHandler (s : loc) : M loc :=
  logger ← load_logger s;
  new (handler AlertaHandler
         (Logger.With logger [zap.String "service" "alerta"])).

Definition NewKapacitorHandler (s : loc) : M loc :=
  logger ← load_logger s;
  new (handler KapacitorHandler
         (Logger.With logger [zap.String "service" "kapacitor"])).

Definition NewAlertHandler (s : loc) : M loc :=
  logger ← load_logger s;
  new (handler AlertHandler
         (Logger.With logger [zap.String "service" "alert"])).

Definition NewHipChatHandler (s : loc) : M loc :=
  logger ← load_logger s;
  new (handler HipChatHandler
         (Logger.With logger [zap.String "service" "hipchat"])).

Definition NewUDFServiceHandler (s : loc) : M loc :=
  logger ← load_logger s;
  new (handler UDFServiceHandler
         (Logger.With logger [zap.String "service" "udf"])).
End service.

(** ** Method bodies that the file repeats verbatim *)

(** The field of one context pair: [zap.String(kv.Key, kv.Value)]. *)
Definition kv_field (kv : keyvalue.T) : zap.Field :=
  zap.String (keyvalue.Key kv) (keyvalue.Value kv).

(** [WithContext] of the Alerta, HipChat, PagerDuty, Slack and VictorOps
    handlers and [WithHandlerContext] of the alert service handler have the
    same body, up to the receiver's type [ty]:
<<
    fields := []zapcore.Field{}
    for _, kv := range ctx {
        fields = append(fields, zap.String(kv.Key, kv.Value))
    }
    return &ty{l: h.l.With(fields...)}
>> *)
Definition WithContext_body (ty : HandlerType) (h : loc)
    (ctx : list keyvalue.T) : M loc :=
  let fields := [] in
  let fields :=
    foldl (λ fields kv,
             append fields (zap.String (keyvalue.Key kv) (keyvalue.Value kv)))
          fields ctx in
  l ← load_l ty h;
  new (handler ty (Logger.With l fields)).

(** The loop of the general path of [Error]:
<<
    for i := 1; i < len(fields); i++ {
        kv := ctx[i-1]
        fields[i] = zap.String(kv.Key, kv.Value)
    }
>>
    It is entered with [i = 1], so [i-1] stays a natural number; the read
    [ctx[i-1]] panics out of range, the write [fields[i]] is in range by the
    loop test. *)
Equations Error_loop (i : nat) (ctx : list keyvalue.T)
    (fields : list zap.Field) : M (list zap.Field)
    by wf (length fields - i) lt :=
  Error_loop i ctx fields with decide (i < length fields) := {
    | left _ =>
        match ctx !! (i - 1) with
        | Some kv =>
            Error_loop (i + 1) ctx
              (<[i := zap.String (keyvalue.Key kv) (keyvalue.Value kv)]> fields)
        | None => panic
        end
    | right _ => mret fields }.
Next Obligation. rewrite length_insert. lia. Qed.

(** The general path of [Error]: a slice of [len(ctx)+1] fields is made,
    filled and handed to the logger. *)
Definition Error_general (ty : HandlerType) (h : loc) (msg : string)
    (err : error) (ctx : list keyvalue.T) : M unit :=
  let fields := make (length ctx + 1) in
  fields ← store fields 0 (zap.Error err);
  fields ← Error_loop 1 ctx fields;
  l ← load_l ty h;
  Logger.Error l msg fields.

(** [Error(msg, err, ctx...)] of the alert service, Kapacitor and task store
    handlers: three special cases on [len(ctx)], then the general path. *)
Definition Error_body (ty : HandlerType) (h : loc) (msg : string)
    (err : error) (ctx : list keyvalue.T) : M unit :=
  if decide (length ctx = 0) then
    l ← load_l ty h;
    Logger.Error l msg [zap.Error err]
  else if decide (length ctx = 1) then
    el ← index ctx 0;
    l ← load_l ty h;
    Logger.Error l msg
      [zap.Error err; zap.String (keyvalue.Key el) (keyvalue.Value el)]
  else if decide (length ctx = 2) then
    x ← index ctx 0;
    y ← index ctx 1;
    l ← load_l ty h;
    Logger.Error l msg
      [zap.Error err; zap.String (keyvalue.Key x) (keyvalue.Value x);
       zap.String (keyvalue.Key y) (keyvalue.Value y)]
  else
    Error_general ty h msg err ctx.

(** [Error(msg, err)] of the handlers that take no context:
    [h.l.Error(msg, zap.Error(err))]. *)
Definition Error_plain (ty : HandlerType) (h : loc) (msg : string)
    (err : error) : M unit :=
  l ← load_l ty h;
  Logger.Error l msg [zap.Error err].

(** ** The handlers *)

Module AlertServiceHandler.
Definition WithHandlerContext := WithContext_body AlertServiceHandler.

Definition MigratingHandlerSpecs (h : loc) : M unit :=
  l ← load_l AlertServiceHandler h;
  Logger.Debug l "migrating old v1.2 handler specs" [].

Definition MigratingOldHandlerSpec (h : loc) (spec : string) : M unit :=
  l ← load_l AlertServiceHandler h;
  Logger.Debug l "migrating old handler spec" [zap.String "handler" spec].

Definition FoundHandlerRows (h : loc) (length : Z) : M unit :=
  l ← load_l AlertServiceHandler h;
  Logger.Debug l "found handler rows" [zap.Int "handler_row_count" length].

Definition CreatingNewHandlers (h : loc) (length : Z) : M unit :=
  l ← load_l AlertServiceHandler h;
  Logger.Debug l "creating new handlers in place of old handlers"
    [zap.Int "handler_row_count" length].

Definition FoundNewHandler (h : loc) (key : string) : M unit :=
  l ← load_l AlertServiceHandler h;
  Logger.Debug l "found new handler skipping" [zap.String "handler" key].

Definition Error := Error_body AlertServiceHandler.
End AlertServiceHandler.

Module KapacitorHandler.
Definition WithTaskContext (h : loc) (task : string) : M loc :=
  l ← load_l KapacitorHandler h;
  new (handler KapacitorHandler (Logger.With l [zap.String "task" task])).

Definition WithTaskMasterContext (h : loc) (tm : string) : M loc :=
  l ← load_l KapacitorHandler h;
  new (handler KapacitorHandler
         (Logger.With l [zap.String "task_master" tm])).

Definition WithNodeContext (h : loc) (node : string) : M loc :=
  l ← load_l KapacitorHandler h;
  new (handler KapacitorHandler (Logger.With l [zap.String "node" node])).

Definition WithEdgeContext (h : loc) (task parent child : string) : M loc :=
  l ← load_l KapacitorHandler h;
  new (handler KapacitorHandler
         (Logger.With l [zap.String "task" task; zap.String "parent" parent;
                         zap.String "child" child])).

Definition TaskMasterOpened (h : loc) : M unit :=
  l ← load_l KapacitorHandler h;
  Logger.Info l "opened task master" [].

Definition TaskMasterClosed (h : loc) : M unit :=
  l ← load_l KapacitorHandler h;
  Logger.Info l "closed task master" [].

Definition StartingTask (h : loc) (task : string) : M unit :=
  l ← load_l KapacitorHandler h;
  Logger.Debug l "starting task" [zap.String "task" task].

Definition StartedTask (h : loc) (task : string) : M unit :=
  l ← load_l KapacitorHandler h;
  Logger.Info l "started task" [zap.String "task" task].

Definition StoppedTask (h : loc) (task : string) : M unit :=
  l ← load_l KapacitorHandler h;
  Logger.Info l "stopped task" [zap.String "task" task].

Definition StoppedTaskWithError (h : loc) (task : string) (err : error)
    : M unit :=
  l ← load_l KapacitorHandler h;
  Logger.Error l "failed to stop task with out error"
    [zap.String "task" task; zap.Error err].

Definition TaskMasterDot (h : loc) (d : string) : M unit :=
  l ← load_l KapacitorHandler h;
  Logger.Debug l "listing dot" [zap.String "dot" d].

Definition ClosingEdge (h : loc) (collected emitted : Z) : M unit :=
  l ← load_l KapacitorHandler h;
  Logger.Debug l "closing edge"
    [zap.Int64 "collected" collected; zap.Int64 "emitted" emitted].

Definition Error := Error_body KapacitorHandler.

Definition AlertTriggered (h : loc) (level : alert.Level)
    (id message : string) (rows : models.Row) : M unit :=
  l ← load_l KapacitorHandler h;
  Logger.Debug l "alert triggered"
    [zap.Stringer "level" level; zap.String "id" id;
     zap.String "event_message" message;
     zap.String "data" (fmt.Sprintf_v rows)].

Definition SettingReplicas (h : loc) (new old : Z) (id : string) : M unit :=
  l ← load_l KapacitorHandler h;
  Logger.Debug l "setting replicas"
    [zap.Int "new" new; zap.Int "old" old; zap.String "id" id].

Definition StartingBatchQuery (h : loc) (q : string) : M unit :=
  l ← load_l KapacitorHandler h;
  Logger.Debug l "starting next batch query" [zap.String "query" q].

Definition CannotPerformDerivative (h : loc) (reason : string) : M unit :=
  l ← load_l KapacitorHandler h;
  Logger.Error l "cannot perform derivative" [zap.String "reason" reason].

Definition MissingTagForFlattenOp (h : loc) (tag : string) : M unit :=
  l ← load_l KapacitorHandler h;
  Logger.Error l "point missing tag for flatten operation"
    [zap.String "tag" tag].

Definition IndexOutOfRangeForRow (h : loc) (idx : Z) : M unit :=
  l ← load_l KapacitorHandler h;
  Logger.Error l "index out of range for row update" [zap.Int "index" idx].

Definition LoopbackWriteFailed (h : loc) : M unit :=
  l ← load_l KapacitorHandler h;
  Logger.Error l "failed to write point over loopback" [].

(** The [switch] has one non-empty case, ["info"]; the call after it is
    outside the [switch] and runs for every level. *)
Definition LogData (h : loc) (level prefix data : string) : M unit :=
  (if decide (level = "info") then
     l ← load_l KapacitorHandler h;
     Logger.Info l "listing data"
       [zap.String "prefix" prefix; zap.String "data" data]
   else mret tt);;
  l ← load_l KapacitorHandler h;
  Logger.Info l "listing data"
    [zap.String "prefix" prefix; zap.String "data" data].

Definition UDFLog (h : loc) (s : string) : M unit :=
  l ← load_l KapacitorHandler h;
  Logger.Info l "UDF log" [zap.String "text" s].
End KapacitorHandler.

Module AlertaHandler.
Definition WithContext := WithContext_body AlertaHandler.

Definition TemplateError (h : loc) (err : error) (kv : keyvalue.T)
    : M unit :=
  l ← load_l AlertaHandler h;
  Logger.Error l "failed to evaluate Alerta template"
    [zap.Error err; zap.String (keyvalue.Key kv) (keyvalue.Value kv)].

Definition Error := Error_plain AlertaHandler.
End AlertaHandler.

Module HipChatHandler.
Definition WithContext := WithContext_body HipChatHandler.
Definition Error := Error_plain HipChatHandler.
End HipChatHandler.

Module HTTPDHandler.
(** The result is a [*log.Logger]; [None] is the nil pointer.  The body does
    not touch the receiver. *)
Definition NewHTTPServerErrorLogger (h : loc) : M (option loc) :=
  mret None.

Definition StartingService (h : loc) : M unit :=
  l ← load_l HTTPDHandler h;
  Logger.Info l "starting HTTP service" [].

Definition StoppedService (h : loc) : M unit :=
  l ← load_l HTTPDHandler h;
  Logger.Info l "closed HTTP service" [].

Definition ShutdownTimeout (h : loc) : M unit :=
  l ← load_l HTTPDHandler h;
  Logger.Error l
    "shutdown timedout, forcefully closing all remaining connections" [].

Definition AuthenticationEnabled (h : loc) (enabled : bool) : M unit :=
  l ← load_l HTTPDHandler h;
  Logger.Info l "authentication" [zap.Bool "enabled" enabled].

Definition ListeningOn (h : loc) (addr proto : string) : M unit :=
  l ← load_l HTTPDHandler h;
  Logger.Info l "listening on"
    [zap.String "addr" addr; zap.String "protocol" proto].

Definition WriteBodyReceived (h : loc) (body : string) : M unit :=
  l ← load_l HTTPDHandler h;
  Logger.Debug l "write body received by handler: %s"
    [zap.String "body" body].

Definition HTTP (h : loc) (host username : string) (start : time.Time)
    (method uri proto : string) (status : Z)
    (referer userAgent reqID : string) (duration : time.Duration)
    : M unit :=
  l ← load_l HTTPDHandler h;
  Logger.Info l "???"
    [zap.String "host" host;
     zap.String "username" username;
     zap.Time "start" start;
     zap.String "method" method;
     zap.String "uri" uri;
     zap.String "protocol" proto;
     zap.Int "status" status;
     zap.String "referer" referer;
     zap.String "user-agent" userAgent;
     zap.String "request-id" reqID;
     zap.Duration "duration" duration].

Definition RecoveryError (h : loc) (msg err host username : string)
    (start : time.Time) (method uri proto : string) (status : Z)
    (referer userAgent reqID : string) (duration : time.Duration)
    : M unit :=
  l ← load_l HTTPDHandler h;
  Logger.Error l msg
    [zap.String "err" err;
     zap.String "host" host;
     zap.String "username" username;
     zap.Time "start" start;
     zap.String "method" method;
     zap.String "uri" uri;
     zap.String "protocol" proto;
     zap.Int "status" status;
     zap.String "referer" referer;
     zap.String "user-agent" userAgent;
     zap.String "request-id" reqID;
     zap.Duration "duration" duration].

Definition Error := Error_plain HTTPDHandler.
End HTTPDHandler.

Module ReportingHandler.
Definition Error := Error_plain ReportingHandler.
End ReportingHandler.

Module PagerDutyHandler.
Definition WithContext := WithContext_body PagerDutyHandler.
Definition Error := Error_plain PagerDutyHandler.
End PagerDutyHandler.

Module SlackHandler.
Definition InsecureSkipVerify (h : loc) : M unit :=
  l ← load_l SlackHandler h;
  Logger.Warn l "service is configured to skip ssl verification" [].

Definition Error := Error_plain SlackHandler.
Definition WithContext := WithContext_body SlackHandler.
End SlackHandler.

Module StorageHandler.
Definition Error := Error_plain StorageHandler.
End StorageHandler.

Module TaskStoreHandler.
Definition StartingTask (h : loc) (taskID : string) : M unit :=
  l ← load_l TaskStoreHandler h;
  Logger.Debug l "starting enabled task on startup"
    [zap.String "task" taskID].

Definition StartedTask (h : loc) (taskID : string) : M unit :=
  l ← load_l TaskStoreHandler h;
  Logger.Debug l "started task during startup" [zap.String "task" taskID].

Definition FinishedTask (h : loc) (taskID : string) : M unit :=
  l ← load_l TaskStoreHandler h;
  Logger.Debug l "task finished" [zap.String "task" taskID].

Definition Debug (h : loc) (msg : string) : M unit :=
  l ← load_l TaskStoreHandler h;
  Logger.Debug l msg [].

Definition Error := Error_body TaskStoreHandler.

Definition AlreadyMigrated (h : loc) (entity id : string) : M unit :=
  l ← load_l TaskStoreHandler h;
  Logger.Debug l "entity has already been migrated skipping"
    [zap.String entity id].

Definition Migrated (h : loc) (entity id : string) : M unit :=
  l ← load_l TaskStoreHandler h;
  Logger.Debug l "entity was migrated to new storage service"
    [zap.String entity id].
End TaskStoreHandler.

Module VictorOpsHandler.
Definition Error := Error_plain VictorOpsHandler.
Definition WithContext := WithContext_body VictorOpsHandler.
End VictorOpsHandler.

Module UDFServiceHandler.
Definition LoadedUDFInfo (h : loc) (udf : string) : M unit :=
  l ← load_l UDFServiceHandler h;
  Logger.Debug l "loaded UDF info" [zap.String "udf" udf].
End UDFServiceHandler.

(** ** Method sets *)

(** The handler types with a context-binding method taking a list of pairs,
    and that method. *)
Definition WithContext (ty : HandlerType)
    : option (loc → list keyvalue.T → M loc) :=
  match ty with
  | AlertServiceHandler => Some AlertServiceHandler.WithHandlerContext
  | AlertaHandler => Some AlertaHandler.WithContext
  | HipChatHandler => Some HipChatHandler.WithContext
  | PagerDutyHandler => Some PagerDutyHandler.WithContext
  | SlackHandler => Some SlackHandler.WithContext
  | VictorOpsHandler => Some VictorOpsHandler.WithContext
  | _ => None
  end.

(** The handler types whose [Error] takes context pairs, and that method. *)
Definition Error_ctx (ty : HandlerType)
    : option (loc → string → error → list keyvalue.T → M unit) :=
  match ty with
  | AlertServiceHandler => Some AlertServiceHandler.Error
  | KapacitorHandler => Some KapacitorHandler.Error
  | TaskStoreHandler => Some TaskStoreHandler.Error
  | _ => None
  end.

(** One constructor per event method of the file, with its arguments. *)
Inductive event :=
| AlertService_MigratingHandlerSpecs
| AlertService_MigratingOldHandlerSpec (spec : string)
| AlertService_FoundHandlerRows (length : Z)
| AlertService_CreatingNewHandlers (length : Z)
| AlertService_FoundNewHandler (key : string)
| AlertService_Error (msg : string) (err : error) (ctx : list keyvalue.T)
| Kapacitor_TaskMasterOpened
| Kapacitor_TaskMasterClosed
| Kapacitor_StartingTask (task : string)
| Kapacitor_StartedTask (task : string)
| Kapacitor_StoppedTask (task : string)
| Kapacitor_StoppedTaskWithError (task : string) (err : error)
| Kapacitor_TaskMasterDot (d : string)
| Kapacitor_ClosingEdge (collected emitted : Z)
| Kapacitor_Error (msg : string) (err : error) (ctx : list keyvalue.T)
| Kapacitor_AlertTriggered (level : alert.Level) (id message : string)
    (rows : models.Row)
| Kapacitor_SettingReplicas (new old : Z) (id : string)
| Kapacitor_StartingBatchQuery (q : string)
| Kapacitor_CannotPerformDerivative (reason : string)
| Kapacitor_MissingTagForFlattenOp (tag : string)
| Kapacitor_IndexOutOfRangeForRow (idx : Z)
| Kapacitor_LoopbackWriteFailed
| Kapacitor_LogData (level prefix data : string)
| Kapacitor_UDFLog (s : string)
| Alerta_TemplateError (err : error) (kv : keyvalue.T)
| Alerta_Error (msg : string) (err : error)
| HipChat_Error (msg : string) (err : error)
| HTTPD_StartingService
| HTTPD_StoppedService
| HTTPD_ShutdownTimeout
| HTTPD_AuthenticationEnabled (enabled : bool)
| HTTPD_ListeningOn (addr proto : string)
| HTTPD_WriteBodyReceived (body : string)
| HTTPD_HTTP (host username : string) (start : time.Time)
    (method uri proto : string) (status : Z)
    (referer userAgent reqID : string) (duration : time.Duration)
| HTTPD_RecoveryError (msg err host username : string) (start : time.Time)
    (method uri proto : string) (status : Z)
    (referer userAgent reqID : string) (duration : time.Duration)
| HTTPD_Error (msg : string) (err : error)
| Reporting_Error (msg : string) (err : error)
| PagerDuty_Error (msg : string) (err : error)
| Slack_InsecureSkipVerify
| Slack_Error (msg : string) (err : error)
| Storage_Error (msg : string) (err : error)
| TaskStore_StartingTask (taskID : string)
| TaskStore_StartedTask (taskID : string)
| TaskStore_FinishedTask (taskID : string)
| TaskStore_Debug (msg : string)
| TaskStore_Error (msg : string) (err : error) (ctx : list keyvalue.T)
| TaskStore_AlreadyMigrated (entity id : string)
| TaskStore_Migrated (entity id : string)
| VictorOps_Error (msg : string) (err : error)
| UDFService_LoadedUDFInfo (udf : string).

(** The type whose method an event is. *)
Definition receiver (e : event) : HandlerType :=
  match e with
  | AlertService_MigratingHandlerSpecs | AlertService_MigratingOldHandlerSpec _
  | AlertService_FoundHandlerRows _ | AlertService_CreatingNewHandlers _
  | AlertService_FoundNewHandler _ | AlertService_Error _ _ _ =>
      AlertServiceHandler
  | Kapacitor_TaskMasterOpened | Kapacitor_TaskMasterClosed
  | Kapacitor_StartingTask _ | Kapacitor_StartedTask _
  | Kapacitor_StoppedTask _ | Kapacitor_StoppedTaskWithError _ _
  | Kapacitor_TaskMasterDot _ | Kapacitor_ClosingEdge _ _
  | Kapacitor_Error _ _ _ | Kapacitor_AlertTriggered _ _ _ _
  | Kapacitor_SettingReplicas _ _ _ | Kapacitor_StartingBatchQuery _
  | Kapacitor_CannotPerformDerivative _ | Kapacitor_MissingTagForFlattenOp _
  | Kapacitor_IndexOutOfRangeForRow _ | Kapacitor_LoopbackWriteFailed
  | Kapacitor_LogData _ _ _ | Kapacitor_UDFLog _ => KapacitorHandler
  | Alerta_TemplateError _ _ | Alerta_Error _ _ => AlertaHandler
  | HipChat_Error _ _ => HipChatHandler
  | HTTPD_StartingService | HTTPD_StoppedService | HTTPD_ShutdownTimeout
  | HTTPD_AuthenticationEnabled _ | HTTPD_ListeningOn _ _
  | HTTPD_WriteBodyReceived _ | HTTPD_HTTP _ _ _ _ _ _ _ _ _ _ _
  | HTTPD_RecoveryError _ _ _ _ _ _ _ _ _ _ _ _ _ | HTTPD_Error _ _ =>
      HTTPDHandler
  | Reporting_Error _ _ => ReportingHandler
  | PagerDuty_Error _ _ => PagerDutyHandler
  | Slack_InsecureSkipVerify | Slack_Error _ _ => SlackHandler
  | Storage_Error _ _ => StorageHandler
  | TaskStore_StartingTask _ | TaskStore_StartedTask _
  | TaskStore_FinishedTask _ | TaskStore_Debug _ | TaskStore_Error _ _ _
  | TaskStore_AlreadyMigrated _ _ | TaskStore_Migrated _ _ =>
      TaskStoreHandler
  | VictorOps_Error _ _ => VictorOpsHandler
  | UDFService_LoadedUDFInfo _ => UDFServiceHandler
  end.

(** Calling the method of an event on the receiver [h]. *)
Definition call (e : event) (h : loc) : M unit :=
  match e with
  | AlertService_MigratingHandlerSpecs =>
      AlertServiceHandler.MigratingHandlerSpecs h
  | AlertService_MigratingOldHandlerSpec spec =>
      AlertServiceHandler.MigratingOldHandlerSpec h spec
  | AlertService_FoundHandlerRows n => AlertServiceHandler.FoundHandlerRows h n
  | AlertService_CreatingNewHandlers n =>
      AlertServiceHandler.CreatingNewHandlers h n
  | AlertService_FoundNewHandler key => AlertServiceHandler.FoundNewHandler h key
  | AlertService_Error msg err ctx => AlertServiceHandler.Error h msg err ctx
  | Kapacitor_TaskMasterOpened => KapacitorHandler.TaskMasterOpened h
  | Kapacitor_TaskMasterClosed => KapacitorHandler.TaskMasterClosed h
  | Kapacitor_StartingTask task => KapacitorHandler.StartingTask h task
  | Kapacitor_StartedTask task => KapacitorHandler.StartedTask h task
  | Kapacitor_StoppedTask task => KapacitorHandler.StoppedTask h task
  | Kapacitor_StoppedTaskWithError task err =>
      KapacitorHandler.StoppedTaskWithError h task err
  | Kapacitor_TaskMasterDot d => KapacitorHandler.TaskMasterDot h d
  | Kapacitor_ClosingEdge c e => KapacitorHandler.ClosingEdge h c e
  | Kapacitor_Error msg err ctx => KapacitorHandler.Error h msg err ctx
  | Kapacitor_AlertTriggered level id message rows =>
      KapacitorHandler.AlertTriggered h level id message rows
  | Kapacitor_SettingReplicas n o id => KapacitorHandler.SettingReplicas h n o id
  | Kapacitor_StartingBatchQuery q => KapacitorHandler.StartingBatchQuery h q
  | Kapacitor_CannotPerformDerivative reason =>
      KapacitorHandler.CannotPerformDerivative h reason
  | Kapacitor_MissingTagForFlattenOp tag =>
      KapacitorHandler.MissingTagForFlattenOp h tag
  | Kapacitor_IndexOutOfRangeForRow idx =>
      KapacitorHandler.IndexOutOfRangeForRow h idx
  | Kapacitor_LoopbackWriteFailed => KapacitorHandler.LoopbackWriteFailed h
  | Kapacitor_LogData level prefix data =>
      KapacitorHandler.LogData h level prefix data
  | Kapacitor_UDFLog s => KapacitorHandler.UDFLog h s
  | Alerta_TemplateError err kv => AlertaHandler.TemplateError h err kv
  | Alerta_Error msg err => AlertaHandler.Error h msg err
  | HipChat_Error msg err => HipChatHandler.Error h msg err
  | HTTPD_StartingService => HTTPDHandler.StartingService h
  | HTTPD_StoppedService => HTTPDHandler.StoppedService h
  | HTTPD_ShutdownTimeout => HTTPDHandler.ShutdownTimeout h
  | HTTPD_AuthenticationEnabled b => HTTPDHandler.AuthenticationEnabled h b
  | HTTPD_ListeningOn addr proto => HTTPDHandler.ListeningOn h addr proto
  | HTTPD_WriteBodyReceived body => HTTPDHandler.WriteBodyReceived h body
  | HTTPD_HTTP host username start method uri proto status referer userAgent
      reqID duration =>
      HTTPDHandler.HTTP h host username start method uri proto status referer
        userAgent reqID duration
  | HTTPD_RecoveryError msg err host username start method uri proto status
      referer userAgent reqID duration =>
      HTTPDHandler.RecoveryError h msg err host username start method uri proto
        status referer userAgent reqID duration
  | HTTPD_Error msg err => HTTPDHandler.Error h msg err
  | Reporting_Error msg err => ReportingHandler.Error h msg err
  | PagerDuty_Error msg err => PagerDutyHandler.Error h msg err
  | Slack_InsecureSkipVerify => SlackHandler.InsecureSkipVerify h
  | Slack_Error msg err => SlackHandler.Error h msg err
  | Storage_Error msg err => StorageHandler.Error h msg err
  | TaskStore_StartingTask t => TaskStoreHandler.StartingTask h t
  | TaskStore_StartedTask t => TaskStoreHandler.StartedTask h t
  | TaskStore_FinishedTask t => TaskStoreHandler.FinishedTask h t
  | TaskStore_Debug msg => TaskStoreHandler.Debug h msg
  | TaskStore_Error msg err ctx => TaskStoreHandler.Error h msg err ctx
  | TaskStore_AlreadyMigrated entity id =>
      TaskStoreHandler.AlreadyMigrated h entity id
  | TaskStore_Migrated entity id => TaskStoreHandler.Migrated h entity id
  | VictorOps_Error msg err => VictorOpsHandler.Error h msg err
  | UDFService_LoadedUDFInfo udf => UDFServiceHandler.LoadedUDFInfo h udf
  end.

(** ** What the spec says, as definitions *)

(** A single general path for [Error]: the error field, then the field of
    each context pair in order, whatever the number of pairs. *)
Definition Error_spec (ty : HandlerType) (h : loc) (msg : string)
    (err : error) (ctx : list keyvalue.T) : M unit :=
  l ← load_l ty h;
  Logger.Error l msg (zap.Error err :: map kv_field ctx).

(** [emits m σ es]: run from [σ], [m] returns, leaves the heap as it was and
    hands exactly the entries [es], in this order, to the sink. *)
Definition emits (m : M unit) (σ : state) (es : list zap.Entry) : Prop :=
  m σ = Some (tt, mkState (heap σ) (out σ ++ es)).

(** An entity-kind and an identifier carried by two distinct fields of an
    entry: two different positions, one field naming the kind, the other the
    identifier (as key or as value). *)
Definition mentions (f : zap.Field) (s : string) : Prop :=
  match f with
  | zap.String key val => key = s ∨ val = s
  | _ => False
  end.

Definition two_distinct_fields (entity id : string) (en : zap.Entry) : Prop :=
  ∃ i j fi fj,
    i ≠ j ∧ zap.all_fields en !! i = Some fi ∧ zap.all_fields en !! j = Some fj ∧
    mentions fi entity ∧ mentions fj id.

(** What zap makes of an error field.  [zap.Error(err)] is
    [zap.NamedError("error", err)]: for a nil error the library returns
    [zap.Skip()], a no-op field with no key and no text that is not written;
    otherwise the field is written under the key [error] with the text
    [err.Error()]. *)
Definition is_Skip (f : zap.Field) : bool :=
  match f with
  | zap.Error None => true
  | _ => false
  end.

(** The fields of a call that are written to the record: all but the no-op
    ones, in order. *)
Definition written (fs : list zap.Field) : list zap.Field :=
  List.filter (λ f, negb (is_Skip f)) fs.

(** The description an error field carries, if the field is one and carries
    one. *)
Definition error_description (f : zap.Field) : option string :=
  match f with
  | zap.Error (Some d) => Some d
  | _ => None
  end.

(** The written fields of an entry are an error's description followed by
    [attempt="3"]. *)
Definition description_then_attempt (en : zap.Entry) : Prop :=
  ∃ f d,
    written (zap.fields en) = [f; zap.String "attempt" "3"] ∧
    error_description f = Some d.

(** [constructs m ty name root σ]: run from [σ], [m] returns the address of a
    new object, a [ty] whose logger is [root] with the one field
    [service=name] bound after [root]'s own; nothing else changes and nothing
    is emitted. *)
Definition constructs (m : M loc) (ty : HandlerType) (name : string)
    (root : zap.Logger) (σ : state) : Prop :=
  ∃ p lg,
    m σ = Some (p, mkState (<[p := handler ty lg]> (heap σ)) (out σ)) ∧
    heap σ !! p = None ∧
    zap.context lg = zap.context root ++ [zap.String "service" name].

(** ** Definitions used by the proofs *)

(** The shape of an event method: read the receiver's logger, hand it one
    entry. *)
Definition log (ty : HandlerType) (h : loc) (lvl : zapcore.Level)
    (msg : string) (flds : list zap.Field) : M unit :=
  l ← load_l ty h;
  Logger.emit lvl l msg flds.

(** A state to run examples in: the factory at address 1 and, made by it, a
    Slack handler at 2, a Kapacitor handler at 3, a task store handler at 4
    and an HTTPD handler at 5; nothing emitted yet. *)
Definition example_run : M unit :=
  s ← NewService;
  _ ← service.NewSlackHandler s;
  _ ← service.NewKapacitorHandler s;
  _ ← service.NewTaskStoreHandler s;
  _ ← service.NewHTTPDHandler s;
  mret tt.

Definition example_state : state :=
  match example_run (mkState ∅ []) with
  | Some (_, σ) => σ
  | None => mkState ∅ []
  end.

Definition slack_logger : zap.Logger :=
  zap.mkLogger [zap.String "service" "slack"].
Definition kapacitor_logger : zap.Logger :=
  zap.mkLogger [zap.String "service" "kapacitor"].
Definition task_store_logger : zap.Logger :=
  zap.mkLogger [zap.String "service" "task_store"].
Definition http_logger : zap.Logger :=
  zap.mkLogger [zap.String "service" "http"].

(** [derives m ty l flds σ]: run from [σ], [m] returns the address of a new
    object, a [ty] whose logger is [l] with [flds] bound after [l]'s own
    fields; nothing else changes and nothing is emitted. *)
Definition derives (m : M loc) (ty : HandlerType) (l : zap.Logger)
    (flds : list zap.Field) (σ : state) : Prop :=
  ∃ p,
    m σ = Some (p, mkState (<[p := handler ty (Logger.With l flds)]> (heap σ))
                     (out σ)) ∧
    heap σ !! p = None.

(** The events that are calls of a method named [Error], with the message,
    the error and the context pairs of the call (none for the handlers whose
    [Error] takes no pairs). *)
Definition Error_event (e : event)
    : option (string * error * list keyvalue.T) :=
  match e with
  | AlertService_Error msg err ctx | Kapacitor_Error msg err ctx
  | TaskStore_Error msg err ctx => Some (msg, err, ctx)
  | Alerta_Error msg err | HipChat_Error msg err | HTTPD_Error msg err
  | Reporting_Error msg err | PagerDuty_Error msg err | Slack_Error msg err
  | Storage_Error msg err | VictorOps_Error msg err => Some (msg, err, [])
  | _ => None
  end.

(** The accessor of the factory for a handler type, with the name it binds
    to [service]; the factory has none for the alert service and PagerDuty
    handlers. *)
Definition accessor (ty : HandlerType) : option ((loc → M loc) * string) :=
  match ty with
  | VictorOpsHandler => Some (service.NewVictorOpsHandler, "victorops")
  | SlackHandler => Some (service.NewSlackHandler, "slack")
  | TaskStoreHandler => Some (service.NewTaskStoreHandler, "task_store")
  | ReportingHandler => Some (service.NewReportingHandler, "reporting")
  | StorageHandler => Some (service.NewStorageHandler, "storage")
  | HTTPDHandler => Some (service.NewHTTPDHandler, "http")
  | AlertaHandler => Some (service.NewAlertaHandler, "alerta")
  | KapacitorHandler => Some (service.NewKapacitorHandler, "kapacitor")
  | AlertHandler => Some (service.NewAlertHandler, "alert")
  | HipChatHandler => Some (service.NewHipChatHandler, "hipchat")
  | UDFServiceHandler => Some (service.NewUDFServiceHandler, "udf")
  | AlertServiceHandler | PagerDutyHandler => None
  end.

(** A chain of derivations [h.WithContext(F1...).WithContext(F2...)...], one
    per list of pairs; no derivation for the empty chain. *)
Fixpoint WithContext_chain (wc : loc → list keyvalue.T → M loc) (h : loc)
    (Fs : list (list keyvalue.T)) : M loc :=
  match Fs with
  | [] => mret h
  | F :: Fs' => a ← wc h F; WithContext_chain wc a Fs'
  end.

(** ** The monad and the heap *)

Lemma load_l_run ty h l σ :
  heap σ !! h = Some (handler ty l) → load_l ty h σ = Some (l, σ).
Proof.
  intros H. unfold load_l. rewrite H. by rewrite decide_True.
Qed.

Lemma load_l_ext ty h h' σ σ' :
  heap σ !! h = heap σ' !! h' →
  load_l ty h σ = None ∧ load_l ty h' σ' = None ∨
  ∃ l, load_l ty h σ = Some (l, σ) ∧ load_l ty h' σ' = Some (l, σ').
Proof.
  intros H. unfold load_l. rewrite H.
  destruct (heap σ' !! h') as [[lg|ty' l]|]; auto.
  case_decide; eauto.
Qed.

Lemma new_run o σ :
  ∃ p, new o σ = Some (p, mkState (<[p := o]> (heap σ)) (out σ)) ∧
       heap σ !! p = None.
Proof.
  exists (fresh (dom (heap σ))). split; [done|].
  apply not_elem_of_dom, is_fresh.
Qed.

(** ** The general path of [Error] *)

Lemma Error_loop_run (i : nat) ctx fields σ :
  (1 ≤ i)%nat → length fields = length ctx + 1 →
  Error_loop i ctx fields σ
  = Some (take i fields ++ map kv_field (drop (i - 1) ctx), σ).
Proof.
  funelim (Error_loop i ctx fields); intros Hi Hlen.
  - destruct (lookup_lt_is_Some_2 ctx (i - 1)) as [kv Hkv]; [lia|].
    rewrite Hkv. rewrite (H kv σ σ); [|lia|rewrite length_insert; lia].
    do 2 f_equal. fold (kv_field kv).
    destruct (lookup_lt_is_Some_2 fields i) as [x Hx]; [lia|].
    rewrite Nat.add_1_r.
    rewrite (take_S_r _ i (kv_field kv)).
    2:{ apply list_lookup_insert_eq. lia. }
    rewrite take_insert_ge by lia.
    rewrite <- app_assoc. f_equal.
    replace (S i - 1) with (S (i - 1)) by lia.
    symmetry. rewrite (drop_S _ kv (i - 1)) by done. done.
  - unfold mret, M_ret. do 2 f_equal.
    rewrite take_ge by lia. rewrite drop_ge by lia. by rewrite app_nil_r.
Qed.

Lemma Error_general_spec ty h msg err ctx σ :
  Error_general ty h msg err ctx σ = Error_spec ty h msg err ctx σ.
Proof.
  unfold Error_general, Error_spec, make, store.
  rewrite decide_True by (rewrite length_replicate; lia).
  unfold mbind at 1 2, M_bind, mret at 1, M_ret.
  rewrite Error_loop_run; [|lia|rewrite length_insert, length_replicate; lia].
  rewrite Nat.add_1_r. simpl. by rewrite drop_0.
Qed.

Lemma Error_body_spec ty h msg err ctx σ :
  Error_body ty h msg err ctx σ = Error_spec ty h msg err ctx σ.
Proof.
  unfold Error_body.
  destruct ctx as [|x [|y [|z ctx]]]; simpl; try done.
  apply Error_general_spec.
Qed.

(** ** Event methods *)

Lemma log_emits ty h l lvl msg flds σ :
  heap σ !! h = Some (handler ty l) →
  emits (log ty h lvl msg flds) σ [zap.mkEntry lvl msg (zap.context l) flds].
Proof.
  intros H. unfold emits, log, mbind, M_bind. by rewrite (load_l_run _ _ l).
Qed.

Lemma log_ext ty h h' lvl msg flds σ σ' es :
  heap σ !! h = heap σ' !! h' →
  emits (log ty h lvl msg flds) σ es → emits (log ty h' lvl msg flds) σ' es.
Proof.
  intros H. unfold emits, log, mbind, M_bind.
  destruct (load_l_ext ty h h' σ σ' H) as [[-> ->]|(l & -> & ->)]; [done|].
  unfold Logger.emit. intros [= E]. apply app_inv_head in E. by subst.
Qed.

Lemma Error_body_emits ty h l msg err ctx σ :
  heap σ !! h = Some (handler ty l) →
  emits (Error_body ty h msg err ctx) σ
    [zap.mkEntry zapcore.ErrorLevel msg (zap.context l)
       (zap.Error err :: map kv_field ctx)].
Proof.
  intros H. unfold emits. rewrite Error_body_spec. by apply log_emits.
Qed.

Lemma Error_body_ext ty h h' msg err ctx σ σ' es :
  heap σ !! h = heap σ' !! h' →
  emits (Error_body ty h msg err ctx) σ es →
  emits (Error_body ty h' msg err ctx) σ' es.
Proof.
  intros H. unfold emits. rewrite !Error_body_spec. by apply log_ext.
Qed.

Lemma LogData_info_emits h l prefix data σ :
  heap σ !! h = Some (handler KapacitorHandler l) →
  let en := zap.mkEntry zapcore.InfoLevel "listing data" (zap.context l)
              [zap.String "prefix" prefix; zap.String "data" data] in
  emits (KapacitorHandler.LogData h "info" prefix data) σ [en; en].
Proof.
  intros H en. unfold emits, KapacitorHandler.LogData.
  rewrite decide_True by done.
  unfold mbind, M_bind. rewrite (load_l_run _ _ l) by done. simpl.
  rewrite (load_l_run _ _ l) by done.
  unfold Logger.Info, Logger.emit. simpl. by rewrite <- app_assoc.
Qed.

Lemma LogData_other_emits h l level prefix data σ :
  heap σ !! h = Some (handler KapacitorHandler l) → level ≠ "info" →
  emits (KapacitorHandler.LogData h level prefix data) σ
    [zap.mkEntry zapcore.InfoLevel "listing data" (zap.context l)
       [zap.String "prefix" prefix; zap.String "data" data]].
Proof.
  intros H Hl. unfold emits, KapacitorHandler.LogData.
  rewrite decide_False by done.
  unfold mbind at 1, M_bind, mret, M_ret. by apply log_emits.
Qed.

Lemma LogData_ext h h' level prefix data σ σ' es :
  heap σ !! h = heap σ' !! h' →
  emits (KapacitorHandler.LogData h level prefix data) σ es →
  emits (KapacitorHandler.LogData h' level prefix data) σ' es.
Proof.
  intros H. unfold emits, KapacitorHandler.LogData.
  case_decide; unfold mbind, M_bind, mret, M_ret.
  - destruct (load_l_ext KapacitorHandler h h' σ σ' H)
      as [[-> ->]|(l & -> & ->)]; [done|].
    simpl. unfold load_l; simpl. rewrite <- H.
    destruct (heap σ !! h) as [[?|ty' l']|]; try done.
    case_decide; [|done]. unfold Logger.Info, Logger.emit. simpl.
    rewrite <- !app_assoc. intros [= E]. apply app_inv_head in E. by subst.
  - destruct (load_l_ext KapacitorHandler h h' σ σ' H)
      as [[-> ->]|(l & -> & ->)]; [done|].
    unfold Logger.Info, Logger.emit. intros [= E].
    apply app_inv_head in E. by subst.
Qed.

(** Every event method other than [LogData] has the shape [log]; the methods
    with context pairs have it by [Error_body_spec]. *)
Ltac event_cases e :=
  destruct e; simpl in *;
  unfold AlertServiceHandler.Error, KapacitorHandler.Error,
    TaskStoreHandler.Error in *.

(** An event method reads nothing but the receiver's cell of the heap. *)
Lemma call_ext e h h' σ σ' es :
  heap σ !! h = heap σ' !! h' →
  emits (call e h) σ es → emits (call e h') σ' es.
Proof.
  intros H. event_cases e;
    first [ by apply Error_body_ext
          | by apply LogData_ext
          | by apply log_ext ].
Qed.

(** An event method called on a handler emits at least one entry, and every
    entry it emits has exactly the handler's bound fields. *)
Lemma call_emits e h l σ :
  heap σ !! h = Some (handler (receiver e) l) →
  ∃ es, emits (call e h) σ es ∧ es ≠ [] ∧
        Forall (λ en, zap.bound en = zap.context l) es.
Proof.
  intros H. event_cases e;
    try (eexists; split;
         [ first [ by apply Error_body_emits | by apply log_emits ]
         | split; [done | by repeat constructor] ]).
  destruct (decide (level = "info")) as [->|Hne].
  - eexists; split; [by apply LogData_info_emits|].
    split; [done | by repeat constructor].
  - eexists; split; [by apply LogData_other_emits|].
    split; [done | by repeat constructor].
Qed.

(** Every event method call other than [LogData] with level ["info"] emits
    exactly one entry. *)
Lemma call_emits_one e h l σ :
  heap σ !! h = Some (handler (receiver e) l) →
  (∀ prefix data, e ≠ Kapacitor_LogData "info" prefix data) →
  ∃ en, emits (call e h) σ [en].
Proof.
  intros H Hne. event_cases e;
    try (eexists; first [ by apply Error_body_emits | by apply log_emits ]).
  eexists. apply LogData_other_emits; [done|]. intros ->. by eapply Hne.
Qed.

Lemma emits_inj m σ es es' : emits m σ es → emits m σ es' → es = es'.
Proof.
  unfold emits. intros -> [= E]. by apply app_inv_head in E.
Qed.

(** ** Context binding *)

Lemma range_append acc (ctx : list keyvalue.T) :
  foldl (λ fields kv,
           append fields (zap.String (keyvalue.Key kv) (keyvalue.Value kv)))
        acc ctx
  = acc ++ map kv_field ctx.
Proof.
  revert acc. induction ctx as [|kv ctx IH]; intros acc; simpl.
  - by rewrite app_nil_r.
  - rewrite IH. unfold append. by rewrite <- app_assoc.
Qed.

Lemma WithContext_body_run ty h l ctx σ :
  heap σ !! h = Some (handler ty l) →
  ∃ p,
    WithContext_body ty h ctx σ
    = Some (p, mkState
                 (<[p := handler ty
                           (zap.mkLogger (zap.context l ++ map kv_field ctx))]>
                    (heap σ))
                 (out σ)) ∧
    heap σ !! p = None.
Proof.
  intros H. unfold WithContext_body. rewrite range_append. simpl.
  unfold mbind, M_bind. rewrite (load_l_run _ _ l) by done.
  apply new_run.
Qed.

Lemma WithContext_is_body ty wc :
  WithContext ty = Some wc → wc = WithContext_body ty.
Proof. destruct ty; simpl; intros [= <-]; reflexivity. Qed.

Lemma Error_ctx_is_body ty f :
  Error_ctx ty = Some f → f = Error_body ty.
Proof. destruct ty; simpl; intros [= <-]; reflexivity. Qed.

Lemma example_state_heap :
  heap example_state !! 1%positive = Some (service zap.NewExample) ∧
  heap example_state !! 2%positive = Some (handler SlackHandler slack_logger) ∧
  heap example_state !! 3%positive
  = Some (handler KapacitorHandler kapacitor_logger) ∧
  heap example_state !! 4%positive
  = Some (handler TaskStoreHandler task_store_logger) ∧
  heap example_state !! 5%positive = Some (handler HTTPDHandler http_logger) ∧
  out example_state = [].
Proof. repeat split; reflexivity. Qed.

(** ** The claims *)

(** C1.  For each of the three handlers whose [Error] takes context pairs,
    and for every message, error and list of pairs of any length, [Error]
    behaves as the single general path of the spec (error field, then one
    field per pair, in order) and as the file's own general allocation path
    run on the same arguments: the special cases for zero, one and two pairs
    cannot be told apart from it. *)
Theorem Error_fast_paths_transparent ty f h msg err ctx σ :
  Error_ctx ty = Some f →
  f h msg err ctx σ = Error_spec ty h msg err ctx σ ∧
  f h msg err ctx σ = Error_general ty h msg err ctx σ.
Proof.
  intros ->%Error_ctx_is_body.
  rewrite Error_general_spec. split; apply Error_body_spec.
Qed.

Lemma Error_fast_paths_transparent_witness :
  Error_ctx KapacitorHandler = Some KapacitorHandler.Error ∧
  KapacitorHandler.Error 3%positive "m" (Some "boom")
    [keyvalue.KV "a" "1"; keyvalue.KV "b" "2"] example_state
  = Error_spec KapacitorHandler 3%positive "m" (Some "boom")
      [keyvalue.KV "a" "1"; keyvalue.KV "b" "2"] example_state ∧
  KapacitorHandler.Error 3%positive "m" (Some "boom")
    [keyvalue.KV "a" "1"; keyvalue.KV "b" "2"] example_state
  = Error_general KapacitorHandler 3%positive "m" (Some "boom")
      [keyvalue.KV "a" "1"; keyvalue.KV "b" "2"] example_state.
Proof.
  split; [reflexivity|].
  apply (Error_fast_paths_transparent KapacitorHandler KapacitorHandler.Error
           3%positive "m" (Some "boom")
           [keyvalue.KV "a" "1"; keyvalue.KV "b" "2"] example_state).
  reflexivity.
Defined.

(** C2.  Binding [F1] and then [F2] on a handler [h] gives a handler whose
    entries, for every event method, carry as bound fields those of [h]
    followed by [F1] followed by [F2], nothing lost, reordered or merged;
    [h] stays as it was and its own entries are the ones it emitted before,
    bound to its original fields only. *)
Theorem WithContext_appends_in_order ty wc h l F1 F2 σ :
  WithContext ty = Some wc →
  heap σ !! h = Some (handler ty l) →
  ∃ a b σ1 σ2 l2,
    wc h F1 σ = Some (a, σ1) ∧ wc a F2 σ1 = Some (b, σ2) ∧
    a ≠ h ∧ b ≠ h ∧ b ≠ a ∧
    heap σ2 !! b = Some (handler ty l2) ∧
    zap.context l2 = zap.context l ++ map kv_field F1 ++ map kv_field F2 ∧
    heap σ2 !! h = Some (handler ty l) ∧
    out σ2 = out σ ∧
    ∀ e, receiver e = ty →
      (∃ es, emits (call e b) σ2 es ∧ es ≠ [] ∧
         Forall (λ en, zap.bound en
                       = zap.context l ++ map kv_field F1 ++ map kv_field F2)
           es) ∧
      (∃ es, emits (call e h) σ es ∧ emits (call e h) σ2 es ∧ es ≠ [] ∧
         Forall (λ en, zap.bound en = zap.context l) es).
Proof.
  intros ->%WithContext_is_body H.
  destruct (WithContext_body_run ty h l F1 σ H) as (a & Ha & Hfa).
  set (l1 := zap.mkLogger (zap.context l ++ map kv_field F1)) in *.
  set (σ1 := mkState (<[a := handler ty l1]> (heap σ)) (out σ)) in *.
  assert (Ha1 : heap σ1 !! a = Some (handler ty l1))
    by apply lookup_insert_eq.
  destruct (WithContext_body_run ty a l1 F2 σ1 Ha1) as (b & Hb & Hfb).
  set (l2 := zap.mkLogger (zap.context l1 ++ map kv_field F2)) in *.
  set (σ2 := mkState (<[b := handler ty l2]> (heap σ1)) (out σ1)) in *.
  assert (a ≠ h) by congruence.
  assert (b ≠ a) by congruence.
  assert (Hh1 : heap σ1 !! h = Some (handler ty l))
    by (simpl; by rewrite lookup_insert_ne).
  assert (b ≠ h) by congruence.
  assert (Hh2 : heap σ2 !! h = Some (handler ty l))
    by (simpl; by rewrite lookup_insert_ne).
  assert (Hb2 : heap σ2 !! b = Some (handler ty l2))
    by apply lookup_insert_eq.
  assert (Hl2 : zap.context l2
                = zap.context l ++ map kv_field F1 ++ map kv_field F2)
    by (simpl; by rewrite <- app_assoc).
  exists a, b, σ1, σ2, l2. repeat (split; [done|]).
  intros e <-. split.
  - destruct (call_emits e b l2 σ2 Hb2) as (es & ? & ? & ?).
    exists es. by rewrite <- Hl2.
  - destruct (call_emits e h l σ H) as (es & ? & ? & ?).
    exists es. repeat (split; [done|]). split; [|done].
    apply (call_ext e h h σ σ2); [by rewrite Hh2|done].
Qed.

Lemma WithContext_appends_in_order_witness :
  WithContext SlackHandler = Some SlackHandler.WithContext ∧
  heap example_state !! 2%positive = Some (handler SlackHandler slack_logger) ∧
  ∃ a b σ1 σ2 l2,
    SlackHandler.WithContext 2%positive [keyvalue.KV "task" "t1"] example_state
    = Some (a, σ1) ∧
    SlackHandler.WithContext a [keyvalue.KV "node" "n7"] σ1 = Some (b, σ2) ∧
    heap σ2 !! b = Some (handler SlackHandler l2) ∧
    zap.context l2
    = [zap.String "service" "slack"; zap.String "task" "t1";
       zap.String "node" "n7"].
Proof.
  split; [reflexivity|]. split; [reflexivity|].
  destruct (WithContext_appends_in_order SlackHandler SlackHandler.WithContext
              2%positive slack_logger
              [keyvalue.KV "task" "t1"] [keyvalue.KV "node" "n7"] example_state
              eq_refl eq_refl)
    as (a & b & σ1 & σ2 & l2 & H1 & H2 & _ & _ & _ & H3 & H4 & _).
  exists a, b, σ1, σ2, l2. auto.
Defined.

(** C3.  [LogData] called with level ["info"] hands two entries to the
    logger, not one: the call inside the [switch] and the call after it both
    run.  Shown on the Kapacitor handler made by the factory. *)
Theorem LogData_info_emits_twice :
  let en := zap.mkEntry zapcore.InfoLevel "listing data"
              [zap.String "service" "kapacitor"]
              [zap.String "prefix" "p"; zap.String "data" "d"] in
  emits (KapacitorHandler.LogData 3%positive "info" "p" "d") example_state
    [en; en].
Proof.
  apply (LogData_info_emits 3%positive kapacitor_logger "p" "d" example_state).
  reflexivity.
Qed.

(** C4, as stated, fails: the entry of [AlreadyMigrated("task", "t1")] on the
    task store handler made by the factory has no two distinct fields of which
    one names the entity kind and the other the identifier. *)
Lemma AlreadyMigrated_not_two_fields :
  ¬ ∃ en,
      emits (TaskStoreHandler.AlreadyMigrated 4%positive "task" "t1")
        example_state [en] ∧
      zap.level en = zapcore.DebugLevel ∧
      two_distinct_fields "task" "t1" en.
Proof.
  intros (en & He & _ & i & j & fi & fj & Hij & Hi & Hj & Mi & Mj).
  pose proof (log_emits TaskStoreHandler 4%positive task_store_logger
                zapcore.DebugLevel "entity has already been migrated skipping"
                [zap.String "task" "t1"] example_state eq_refl) as He'.
  pose proof (emits_inj _ _ _ _ He He') as [= ->]. clear He He'.
  destruct i as [|[|i]], j as [|[|j]]; simpl in *; try congruence;
    repeat match goal with
           | H : Some _ = Some _ |- _ => injection H as <-
           end;
    simpl in *; intuition discriminate.
Qed.

(** C4, amended.  [AlreadyMigrated(entity, id)] and [Migrated(entity, id)]
    each emit one debug entry with a single field of their own, whose key is
    the entity kind and whose value is the identifier. *)
Theorem migration_events_one_field h l entity id σ :
  heap σ !! h = Some (handler TaskStoreHandler l) →
  emits (TaskStoreHandler.AlreadyMigrated h entity id) σ
    [zap.mkEntry zapcore.DebugLevel "entity has already been migrated skipping"
       (zap.context l) [zap.String entity id]] ∧
  emits (TaskStoreHandler.Migrated h entity id) σ
    [zap.mkEntry zapcore.DebugLevel
       "entity was migrated to new storage service"
       (zap.context l) [zap.String entity id]].
Proof. intros H. split; by apply log_emits. Qed.

Lemma migration_events_one_field_witness :
  heap example_state !! 4%positive
  = Some (handler TaskStoreHandler task_store_logger) ∧
  emits (TaskStoreHandler.AlreadyMigrated 4%positive "task" "t1") example_state
    [zap.mkEntry zapcore.DebugLevel "entity has already been migrated skipping"
       [zap.String "service" "task_store"] [zap.String "task" "t1"]] ∧
  emits (TaskStoreHandler.Migrated 4%positive "task" "t1") example_state
    [zap.mkEntry zapcore.DebugLevel
       "entity was migrated to new storage service"
       [zap.String "service" "task_store"] [zap.String "task" "t1"]].
Proof.
  split; [reflexivity|].
  apply (migration_events_one_field 4%positive task_store_logger "task" "t1"
           example_state).
  reflexivity.
Defined.

(** C5.  [HTTP] emits exactly one info entry whose own fields are the eleven
    request attributes in the order host, username, start, method, uri,
    protocol, status, referer, user-agent, request-id, duration, whatever
    their values: an empty string is attached like any other. *)
Theorem HTTP_emits_eleven_fields h l host username start method uri proto
    status referer userAgent reqID duration σ :
  heap σ !! h = Some (handler HTTPDHandler l) →
  emits (HTTPDHandler.HTTP h host username start method uri proto status
           referer userAgent reqID duration) σ
    [zap.mkEntry zapcore.InfoLevel "???" (zap.context l)
       [zap.String "host" host;
        zap.String "username" username;
        zap.Time "start" start;
        zap.String "method" method;
        zap.String "uri" uri;
        zap.String "protocol" proto;
        zap.Int "status" status;
        zap.String "referer" referer;
        zap.String "user-agent" userAgent;
        zap.String "request-id" reqID;
        zap.Duration "duration" duration]].
Proof. intros H. by apply log_emits. Qed.

Lemma HTTP_emits_eleven_fields_witness :
  heap example_state !! 5%positive = Some (handler HTTPDHandler http_logger) ∧
  emits (HTTPDHandler.HTTP 5%positive "10.0.0.1" "alice" 1500000000%Z "GET"
           "/ping" "HTTP/1.1" 204%Z "" "curl" "req-1" 1200%Z) example_state
    [zap.mkEntry zapcore.InfoLevel "???" [zap.String "service" "http"]
       [zap.String "host" "10.0.0.1";
        zap.String "username" "alice";
        zap.Time "start" 1500000000%Z;
        zap.String "method" "GET";
        zap.String "uri" "/ping";
        zap.String "protocol" "HTTP/1.1";
        zap.Int "status" 204%Z;
        zap.String "referer" "";
        zap.String "user-agent" "curl";
        zap.String "request-id" "req-1";
        zap.Duration "duration" 1200%Z]].
Proof.
  split; [reflexivity|].
  apply (HTTP_emits_eleven_fields 5%positive http_logger "10.0.0.1" "alice"
           1500000000%Z "GET" "/ping" "HTTP/1.1" 204%Z "" "curl" "req-1"
           1200%Z example_state).
  reflexivity.
Defined.

(** C6.  After [a := h.WithContext(F)] and [b := h.WithContext(G)], the
    handler [h] is the object it was, and so is [a] after [b] was derived; for
    every event method, [h] emits the very entries it emitted before the two
    derivations, bound to its original fields: no field of [F] or [G] that
    [h] had not bound itself is among the bound fields of an entry of [h]. *)
Theorem WithContext_leaves_parent ty wc h l F G σ :
  WithContext ty = Some wc →
  heap σ !! h = Some (handler ty l) →
  ∃ a b σ1 σ2,
    wc h F σ = Some (a, σ1) ∧ wc h G σ1 = Some (b, σ2) ∧
    heap σ2 !! h = Some (handler ty l) ∧
    heap σ2 !! a = heap σ1 !! a ∧
    ∀ e, receiver e = ty →
      ∃ es, emits (call e h) σ es ∧ emits (call e h) σ2 es ∧ es ≠ [] ∧
        Forall (λ en, zap.bound en = zap.context l) es ∧
        ∀ f en, f ∈ map kv_field F ++ map kv_field G → f ∉ zap.context l →
                en ∈ es → f ∉ zap.bound en.
Proof.
  intros ->%WithContext_is_body H.
  destruct (WithContext_body_run ty h l F σ H) as (a & Ha & Hfa).
  set (σ1 := mkState _ (out σ)) in Ha.
  assert (a ≠ h) by congruence.
  assert (Hh1 : heap σ1 !! h = Some (handler ty l))
    by (simpl; by rewrite lookup_insert_ne).
  destruct (WithContext_body_run ty h l G σ1 Hh1) as (b & Hb & Hfb).
  set (σ2 := mkState _ (out σ1)) in Hb.
  assert (b ≠ h) by congruence.
  assert (b ≠ a) by (intros ->; simpl in Hfb; by rewrite lookup_insert_eq in Hfb).
  assert (Hh2 : heap σ2 !! h = Some (handler ty l))
    by (simpl; by rewrite lookup_insert_ne).
  exists a, b, σ1, σ2. repeat (split; [done|]).
  split; [simpl; by rewrite (lookup_insert_ne _ b a)|].
  intros e <-.
  destruct (call_emits e h l σ H) as (es & He & Hne & Hb').
  exists es. split; [done|].
  split; [apply (call_ext e h h σ σ2); [by rewrite Hh2|done]|].
  repeat (split; [done|]).
  intros f en _ Hf Hen. rewrite Forall_forall in Hb'. by rewrite Hb'.
Qed.

Lemma WithContext_leaves_parent_witness :
  WithContext SlackHandler = Some SlackHandler.WithContext ∧
  heap example_state !! 2%positive = Some (handler SlackHandler slack_logger) ∧
  ∃ a b σ1 σ2,
    SlackHandler.WithContext 2%positive [keyvalue.KV "task" "t1"] example_state
    = Some (a, σ1) ∧
    SlackHandler.WithContext 2%positive [keyvalue.KV "node" "n7"] σ1
    = Some (b, σ2) ∧
    heap σ2 !! 2%positive = Some (handler SlackHandler slack_logger).
Proof.
  split; [reflexivity|]. split; [reflexivity|].
  destruct (WithContext_leaves_parent SlackHandler SlackHandler.WithContext
              2%positive slack_logger
              [keyvalue.KV "task" "t1"] [keyvalue.KV "node" "n7"] example_state
              eq_refl eq_refl)
    as (a & b & σ1 & σ2 & H1 & H2 & H3 & _).
  exists a, b, σ1, σ2. auto.
Defined.

(** C7, as stated, fails for the nil error: the entry of
    [Error("write failed", nil, ("attempt","3"))] on the task store handler
    made by the factory has no error description among its written fields;
    [zap.Error(nil)] is a no-op field and [attempt="3"] is written alone. *)
Lemma Error_write_failed_nil_no_description :
  ¬ ∃ en,
      emits (TaskStoreHandler.Error 4%positive "write failed" None
               [keyvalue.KV "attempt" "3"]) example_state [en] ∧
      zap.level en = zapcore.ErrorLevel ∧
      zap.message en = "write failed" ∧
      description_then_attempt en.
Proof.
  intros (en & He & _ & _ & f & d & Hw & Hd).
  pose proof (Error_body_emits TaskStoreHandler 4%positive task_store_logger
                "write failed" None [keyvalue.KV "attempt" "3"] example_state
                eq_refl) as He'.
  pose proof (emits_inj _ _ _ _ He He') as [= ->]. clear He He'.
  simpl in Hw. discriminate Hw.
Qed.

(** C7, amended.  On each of the three handlers whose [Error] takes context
    pairs, and for every error that is not nil, [Error("write failed", err,
    ("attempt","3"))] emits exactly one error entry with message
    ["write failed"] whose own fields, all of them written, are the error
    field carrying the error's description followed by [attempt="3"]. *)
Theorem Error_write_failed_non_nil ty f h l d σ :
  Error_ctx ty = Some f →
  heap σ !! h = Some (handler ty l) →
  let en := zap.mkEntry zapcore.ErrorLevel "write failed" (zap.context l)
              [zap.Error (Some d); zap.String "attempt" "3"] in
  emits (f h "write failed" (Some d) [keyvalue.KV "attempt" "3"]) σ [en] ∧
  written (zap.fields en) = [zap.Error (Some d); zap.String "attempt" "3"] ∧
  error_description (zap.Error (Some d)) = Some d ∧
  description_then_attempt en.
Proof.
  intros ->%Error_ctx_is_body H en. split.
  - by apply (Error_body_emits ty h l "write failed" (Some d)
                [keyvalue.KV "attempt" "3"]).
  - split; [done|]. split; [done|]. by exists (zap.Error (Some d)), d.
Qed.

Lemma Error_write_failed_non_nil_witness :
  Error_ctx TaskStoreHandler = Some TaskStoreHandler.Error ∧
  heap example_state !! 4%positive
  = Some (handler TaskStoreHandler task_store_logger) ∧
  emits (TaskStoreHandler.Error 4%positive "write failed" (Some "disk full")
           [keyvalue.KV "attempt" "3"]) example_state
    [zap.mkEntry zapcore.ErrorLevel "write failed"
       [zap.String "service" "task_store"]
       [zap.Error (Some "disk full"); zap.String "attempt" "3"]].
Proof.
  split; [reflexivity|]. split; [reflexivity|].
  apply (Error_write_failed_non_nil TaskStoreHandler TaskStoreHandler.Error
           4%positive task_store_logger "disk full" example_state);
    reflexivity.
Defined.

(** C8.  Each accessor of the factory returns, whenever it is called on a
    factory, the address of a new object: a handler of the accessor's type
    whose logger is the factory's logger with the one field
    [service=<name>] bound after it.  Nothing is emitted and no other object
    changes. *)
Theorem factory_accessors s root σ :
  heap σ !! s = Some (service root) →
  constructs (service.NewVictorOpsHandler s) VictorOpsHandler "victorops"
    root σ ∧
  constructs (service.NewSlackHandler s) SlackHandler "slack" root σ ∧
  constructs (service.NewTaskStoreHandler s) TaskStoreHandler "task_store"
    root σ ∧
  constructs (service.NewReportingHandler s) ReportingHandler "reporting"
    root σ ∧
  constructs (service.NewStorageHandler s) StorageHandler "storage" root σ ∧
  constructs (service.NewHTTPDHandler s) HTTPDHandler "http" root σ ∧
  constructs (service.NewAlertaHandler s) AlertaHandler "alerta" root σ ∧
  constructs (service.NewKapacitorHandler s) KapacitorHandler "kapacitor"
    root σ ∧
  constructs (service.NewAlertHandler s) AlertHandler "alert" root σ ∧
  constructs (service.NewHipChatHandler s) HipChatHandler "hipchat" root σ ∧
  constructs (service.NewUDFServiceHandler s) UDFServiceHandler "udf" root σ.
Proof.
  intros H.
  assert (Hl : load_logger s σ = Some (root, σ))
    by (unfold load_logger; by rewrite H).
  repeat split;
    match goal with
    | |- constructs _ ?ty ?name _ _ =>
        destruct (new_run
                    (handler ty
                       (Logger.With root [zap.String "service" name])) σ)
          as (p & Hp & Hfresh);
        exists p, (Logger.With root [zap.String "service" name]);
        split; [|done]
    end;
    match goal with
    | |- ?m s σ = _ => unfold m
    end;
    unfold mbind, M_bind; by rewrite Hl.
Qed.

Lemma factory_accessors_witness :
  heap example_state !! 1%positive = Some (service zap.NewExample) ∧
  constructs (service.NewVictorOpsHandler 1%positive) VictorOpsHandler
    "victorops" zap.NewExample example_state ∧
  constructs (service.NewUDFServiceHandler 1%positive) UDFServiceHandler
    "udf" zap.NewExample example_state.
Proof.
  split; [reflexivity|].
  destruct (factory_accessors 1%positive zap.NewExample example_state eq_refl)
    as (H1 & _ & _ & _ & _ & _ & _ & _ & _ & _ & H11).
  split; assumption.
Defined.

(** C9.  [NewHTTPServerErrorLogger] returns the nil logger, whatever the
    receiver and the state, and changes nothing. *)
Theorem NewHTTPServerErrorLogger_nil h σ :
  HTTPDHandler.NewHTTPServerErrorLogger h σ = Some (None, σ).
Proof. reflexivity. Qed.

(** C10.  Binding no pair gives a new handler, at an address that was not in
    use and so distinct from the receiver, with the receiver's bound fields;
    for every event method the two emit the same entries. *)
Theorem WithContext_nil ty wc h l σ :
  WithContext ty = Some wc →
  heap σ !! h = Some (handler ty l) →
  ∃ b σ' l',
    wc h [] σ = Some (b, σ') ∧
    b ≠ h ∧ heap σ !! b = None ∧
    heap σ' !! b = Some (handler ty l') ∧
    zap.context l' = zap.context l ∧
    heap σ' !! h = Some (handler ty l) ∧
    out σ' = out σ ∧
    ∀ e, receiver e = ty →
      ∃ es, emits (call e b) σ' es ∧ emits (call e h) σ' es ∧ es ≠ [] ∧
            Forall (λ en, zap.bound en = zap.context l) es.
Proof.
  intros ->%WithContext_is_body H.
  destruct (WithContext_body_run ty h l [] σ H) as (b & Hb & Hfb).
  set (l' := zap.mkLogger (zap.context l ++ map kv_field [])) in *.
  set (σ' := mkState _ (out σ)) in Hb.
  assert (b ≠ h) by congruence.
  assert (Hb' : heap σ' !! b = Some (handler ty l'))
    by apply lookup_insert_eq.
  assert (Hh' : heap σ' !! h = Some (handler ty l))
    by (simpl; by rewrite lookup_insert_ne).
  assert (Hl' : zap.context l' = zap.context l)
    by (simpl; by rewrite app_nil_r).
  assert (El : l' = l)
    by (subst l'; destruct l as [c]; simpl; f_equal; apply app_nil_r).
  exists b, σ', l'. repeat (split; [done|]).
  intros e <-.
  destruct (call_emits e h l σ' Hh') as (es & He & Hne & Hbd).
  exists es. split; [|done].
  apply (call_ext e h b σ' σ'); [|done]. by rewrite Hh', Hb', El.
Qed.

Lemma WithContext_nil_witness :
  WithContext SlackHandler = Some SlackHandler.WithContext ∧
  heap example_state !! 2%positive = Some (handler SlackHandler slack_logger) ∧
  ∃ b σ' l',
    SlackHandler.WithContext 2%positive [] example_state = Some (b, σ') ∧
    b ≠ 2%positive ∧
    heap σ' !! b = Some (handler SlackHandler l') ∧
    zap.context l' = [zap.String "service" "slack"].
Proof.
  split; [reflexivity|]. split; [reflexivity|].
  destruct (WithContext_nil SlackHandler SlackHandler.WithContext 2%positive
              slack_logger example_state eq_refl eq_refl)
    as (b & σ' & l' & H1 & H2 & _ & H3 & H4 & _).
  exists b, σ', l'. auto.
Defined.

(** ** Further properties of the file *)

Lemma load_l_None ty h σ :
  load_l ty h σ = None ↔ ∀ l, heap σ !! h ≠ Some (handler ty l).
Proof.
  unfold load_l. split.
  - intros H l Hl. rewrite Hl in H. by rewrite decide_True in H.
  - intros H. destruct (heap σ !! h) as [[lg|ty' l]|]; try done.
    case_decide; [|done]. subst ty'. by destruct (H l).
Qed.

Lemma log_panics ty h lvl msg flds σ :
  load_l ty h σ = None → log ty h lvl msg flds σ = None.
Proof. intros H. unfold log, mbind, M_bind. by rewrite H. Qed.

(** With a given receiver cell, the number of entries of an event call. *)
Lemma emits_length e h l σ es :
  heap σ !! h = Some (handler (receiver e) l) →
  emits (call e h) σ es →
  length es = 1 ∧ (∀ prefix data, e ≠ Kapacitor_LogData "info" prefix data)
  ∨ length es = 2 ∧ ∃ prefix data, e = Kapacitor_LogData "info" prefix data.
Proof.
  intros H He.
  assert (Hone : ∀ en, emits (call e h) σ [en] → length es = 1)
    by (intros en Hen; by rewrite (emits_inj _ _ _ _ He Hen)).
  event_cases e;
    try (left; split; [|done]; eapply Hone;
         first [ by apply Error_body_emits | by apply log_emits ]).
  destruct (decide (level = "info")) as [->|Hne].
  - right. split; [|by eauto].
    by rewrite (emits_inj _ _ _ _ He (LogData_info_emits _ _ _ _ _ H)).
  - left. split; [|intros p d [= -> _ _]; done].
    by rewrite (emits_inj _ _ _ _ He (LogData_other_emits _ _ _ _ _ _ H Hne)).
Qed.

Lemma derive_run ty h l flds σ :
  heap σ !! h = Some (handler ty l) →
  derives (l ← load_l ty h; new (handler ty (Logger.With l flds))) ty l flds σ.
Proof.
  intros H. unfold derives, mbind, M_bind. rewrite (load_l_run _ _ l) by done.
  apply new_run.
Qed.

(** X1.  Called on a handler, an event method returns, leaves the heap as it
    was and appends to the sink entries bound to exactly the handler's
    fields: one entry for every method and every argument, except [LogData]
    with level ["info"], which appends two. *)
Theorem event_entry_count e h l σ :
  heap σ !! h = Some (handler (receiver e) l) →
  ∃ es,
    emits (call e h) σ es ∧
    Forall (λ en, zap.bound en = zap.context l) es ∧
    (length es = 1 ∧ (∀ prefix data, e ≠ Kapacitor_LogData "info" prefix data)
     ∨ length es = 2 ∧ ∃ prefix data, e = Kapacitor_LogData "info" prefix data).
Proof.
  intros H. event_cases e;
    try (eexists; split;
         [ first [ by apply Error_body_emits | by apply log_emits ]
         | split; [by repeat constructor | left; split; [done | done] ] ]).
  destruct (decide (level = "info")) as [->|Hne].
  - eexists; split; [by apply LogData_info_emits|].
    split; [by repeat constructor|]. right. split; [done|]. eauto.
  - eexists; split; [by apply LogData_other_emits|].
    split; [by repeat constructor|]. left. split; [done|].
    intros p d [= -> _ _]. done.
Qed.

Lemma event_entry_count_witness :
  heap example_state !! 3%positive
  = Some (handler KapacitorHandler kapacitor_logger) ∧
  ∃ es,
    emits (call (Kapacitor_StartedTask "t1") 3%positive) example_state es ∧
    length es = 1.
Proof.
  split; [reflexivity|].
  destruct (event_entry_count (Kapacitor_StartedTask "t1") 3%positive
              kapacitor_logger example_state eq_refl)
    as (es & He & _ & [[Hl _]|[_ (p & d & Hd)]]).
  - exists es. split; assumption.
  - discriminate Hd.
Defined.

(** X2.  The [level] argument of [LogData] never selects the severity: for
    every level the entries are info entries with message ["listing data"]
    and the fields [prefix] and [data]; the argument only decides whether
    there are two of them (level ["info"]) or one. *)
Theorem LogData_level_ignored h l level prefix data σ :
  heap σ !! h = Some (handler KapacitorHandler l) →
  emits (KapacitorHandler.LogData h level prefix data) σ
    (replicate (if decide (level = "info") then 2 else 1)
       (zap.mkEntry zapcore.InfoLevel "listing data" (zap.context l)
          [zap.String "prefix" prefix; zap.String "data" data])).
Proof.
  intros H. case_decide as Hl.
  - subst level. by apply LogData_info_emits.
  - by apply LogData_other_emits.
Qed.

Lemma LogData_level_ignored_witness :
  heap example_state !! 3%positive
  = Some (handler KapacitorHandler kapacitor_logger) ∧
  emits (KapacitorHandler.LogData 3%positive "error" "p" "d") example_state
    [zap.mkEntry zapcore.InfoLevel "listing data"
       [zap.String "service" "kapacitor"]
       [zap.String "prefix" "p"; zap.String "data" "d"]].
Proof.
  split; [reflexivity|].
  apply (LogData_level_ignored 3%positive kapacitor_logger "error" "p" "d"
           example_state).
  reflexivity.
Defined.

(** X3.  An event method panics exactly when its receiver is not an
    allocated handler of the method's type (a nil or dangling pointer among
    them): no argument, no number of context pairs makes it panic on a
    handler, and none saves it without one.  The same holds for
    [WithContext]. *)
Theorem panics_iff_bad_receiver h σ :
  (∀ e, call e h σ = None
        ↔ ∀ l, heap σ !! h ≠ Some (handler (receiver e) l)) ∧
  (∀ ty wc ctx, WithContext ty = Some wc →
     (wc h ctx σ = None ↔ ∀ l, heap σ !! h ≠ Some (handler ty l))).
Proof.
  split.
  - intros e. split.
    + intros Hn l Hl.
      destruct (call_emits e h l σ Hl) as (es & He & _).
      unfold emits in He. congruence.
    + intros Hl%load_l_None. event_cases e;
        first [ by apply log_panics
              | rewrite Error_body_spec; by apply log_panics
              | idtac ].
      unfold KapacitorHandler.LogData, mbind, M_bind.
      case_decide; [by rewrite Hl|]. unfold mret, M_ret. by rewrite Hl.
  - intros ty wc ctx ->%WithContext_is_body. split.
    + intros Hn l Hl.
      destruct (WithContext_body_run ty h l ctx σ Hl) as (p & Hp & _).
      congruence.
    + intros Hl%load_l_None.
      unfold WithContext_body, mbind, M_bind. by rewrite Hl.
Qed.

Lemma panics_iff_bad_receiver_witness :
  WithContext SlackHandler = Some SlackHandler.WithContext ∧
  (SlackHandler.WithContext 9%positive [keyvalue.KV "k" "v"] example_state
   = None
   ↔ ∀ l, heap example_state !! 9%positive ≠ Some (handler SlackHandler l)).
Proof.
  split; [reflexivity|].
  apply (proj2 (panics_iff_bad_receiver 9%positive example_state)
           SlackHandler SlackHandler.WithContext [keyvalue.KV "k" "v"]).
  reflexivity.
Defined.

Lemma bind_run {A B} (m : M A) (k : A → M B) σ a σ' :
  m σ = Some (a, σ') → (m ≫= k) σ = k a σ'.
Proof. intros H. unfold mbind, M_bind. by rewrite H. Qed.

Lemma accessor_run ty acc name s root σ :
  accessor ty = Some (acc, name) →
  heap σ !! s = Some (service root) →
  derives (acc s) ty root [zap.String "service" name] σ.
Proof.
  intros Hacc H.
  assert (Hl : load_logger s σ = Some (root, σ))
    by (unfold load_logger; by rewrite H).
  destruct ty; simpl in Hacc; try discriminate;
    injection Hacc as <- <-;
    unfold derives;
    match goal with |- ∃ _, ?m s σ = _ ∧ _ => unfold m end;
    rewrite (bind_run _ _ _ _ _ Hl); apply new_run.
Qed.

(** X4.  The edge scope binds its task under the key [task], the key
    [WithTaskContext] uses: an edge handler derived from a task-scoped handler
    has [task] bound twice, then [parent] and [child]; no scope method
    replaces or merges a field bound earlier, and the receiver of each
    derivation stays what it was. *)
Theorem task_then_edge_binds_task_twice h l task task' parent child σ :
  heap σ !! h = Some (handler KapacitorHandler l) →
  ∃ t g σ1 σ2,
    KapacitorHandler.WithTaskContext h task σ = Some (t, σ1) ∧
    KapacitorHandler.WithEdgeContext t task' parent child σ1 = Some (g, σ2) ∧
    heap σ2 !! g
    = Some (handler KapacitorHandler
              (zap.mkLogger
                 (zap.context l ++
                  [zap.String "task" task; zap.String "task" task';
                   zap.String "parent" parent; zap.String "child" child]))) ∧
    heap σ2 !! t
    = Some (handler KapacitorHandler
              (zap.mkLogger (zap.context l ++ [zap.String "task" task]))) ∧
    heap σ2 !! h = Some (handler KapacitorHandler l) ∧
    out σ2 = out σ.
Proof.
  intros H.
  destruct (derive_run KapacitorHandler h l [zap.String "task" task] σ H)
    as (t & Ht & Hft).
  set (l1 := Logger.With l [zap.String "task" task]) in *.
  set (σ1 := mkState _ (out σ)) in Ht.
  assert (Ht1 : heap σ1 !! t = Some (handler KapacitorHandler l1))
    by apply lookup_insert_eq.
  destruct (derive_run KapacitorHandler t l1
              [zap.String "task" task'; zap.String "parent" parent;
               zap.String "child" child] σ1 Ht1)
    as (g & Hg & Hfg).
  set (σ2 := mkState _ (out σ1)) in Hg.
  assert (t ≠ h) by congruence.
  assert (g ≠ t) by congruence.
  assert (g ≠ h)
    by (intros ->; simpl in Hfg; rewrite lookup_insert_ne in Hfg by done;
        congruence).
  exists t, g, σ1, σ2. split; [exact Ht|]. split; [exact Hg|].
  split; [|split; [|split; [|done]]]; simpl.
  - rewrite lookup_insert_eq. unfold Logger.With, l1. simpl.
    by rewrite <- app_assoc.
  - by rewrite lookup_insert_ne, lookup_insert_eq.
  - by rewrite !lookup_insert_ne.
Qed.

Lemma task_then_edge_binds_task_twice_witness :
  heap example_state !! 3%positive
  = Some (handler KapacitorHandler kapacitor_logger) ∧
  ∃ t g σ1 σ2,
    KapacitorHandler.WithTaskContext 3%positive "t1" example_state
    = Some (t, σ1) ∧
    KapacitorHandler.WithEdgeContext t "t1" "in" "out" σ1 = Some (g, σ2) ∧
    heap σ2 !! g
    = Some (handler KapacitorHandler
              (zap.mkLogger
                 [zap.String "service" "kapacitor"; zap.String "task" "t1";
                  zap.String "task" "t1"; zap.String "parent" "in";
                  zap.String "child" "out"])).
Proof.
  split; [reflexivity|].
  destruct (task_then_edge_binds_task_twice 3%positive kapacitor_logger "t1"
              "t1" "in" "out" example_state eq_refl)
    as (t & g & σ1 & σ2 & H1 & H2 & H3 & _).
  exists t, g, σ1, σ2. auto.
Defined.

(** X5.  From the factory to an entry: making a Kapacitor handler,
    scoping it to a task and then to a node emits nothing; the node-scoped
    handler holds the factory logger's fields followed by
    [service="kapacitor"], [task] and [node], in this order; an event method
    called on it then appends its entries, one (two for [LogData] with level
    ["info"]), each bound to exactly these fields, and nothing else reaches
    the sink. *)
Theorem factory_task_node_event s root task node e σ :
  heap σ !! s = Some (service root) →
  receiver e = KapacitorHandler →
  let bound := zap.context root ++
               [zap.String "service" "kapacitor"; zap.String "task" task;
                zap.String "node" node] in
  ∃ h t n σ1 σ2 σ3 es,
    service.NewKapacitorHandler s σ = Some (h, σ1) ∧
    KapacitorHandler.WithTaskContext h task σ1 = Some (t, σ2) ∧
    KapacitorHandler.WithNodeContext t node σ2 = Some (n, σ3) ∧
    out σ1 = out σ ∧ out σ2 = out σ ∧ out σ3 = out σ ∧
    heap σ3 !! n = Some (handler KapacitorHandler (zap.mkLogger bound)) ∧
    emits (call e n) σ3 es ∧
    (h ← service.NewKapacitorHandler s;
     t ← KapacitorHandler.WithTaskContext h task;
     n ← KapacitorHandler.WithNodeContext t node;
     call e n) σ = Some (tt, mkState (heap σ3) (out σ ++ es)) ∧
    Forall (λ en, zap.bound en = bound) es ∧
    (length es = 1 ∧ (∀ prefix data, e ≠ Kapacitor_LogData "info" prefix data)
     ∨ length es = 2 ∧ ∃ prefix data, e = Kapacitor_LogData "info" prefix data).
Proof.
  intros H He bound.
  destruct (accessor_run KapacitorHandler _ _ s root σ eq_refl H)
    as (h & Hh & _).
  set (l0 := Logger.With root [zap.String "service" "kapacitor"]) in *.
  set (σ1 := mkState _ (out σ)) in *.
  assert (Hh0 : heap σ1 !! h = Some (handler KapacitorHandler l0))
    by apply lookup_insert_eq.
  destruct (derive_run KapacitorHandler h l0 [zap.String "task" task] σ1 Hh0)
    as (t & Ht & _).
  fold (KapacitorHandler.WithTaskContext h task) in Ht.
  set (l1 := Logger.With l0 [zap.String "task" task]) in *.
  set (σ2 := mkState _ (out σ1)) in *.
  assert (Ht1 : heap σ2 !! t = Some (handler KapacitorHandler l1))
    by apply lookup_insert_eq.
  destruct (derive_run KapacitorHandler t l1 [zap.String "node" node] σ2 Ht1)
    as (n & Hn & _).
  fold (KapacitorHandler.WithNodeContext t node) in Hn.
  set (l2 := Logger.With l1 [zap.String "node" node]) in *.
  set (σ3 := mkState _ (out σ2)) in *.
  assert (El : l2 = zap.mkLogger bound)
    by (unfold l2, l1, l0, Logger.With, bound; simpl;
        by rewrite <- !app_assoc).
  assert (Hn3 : heap σ3 !! n = Some (handler (receiver e) l2))
    by (rewrite He; apply lookup_insert_eq).
  destruct (call_emits e n l2 σ3 Hn3) as (es & Hes & _ & Hbd).
  exists h, t, n, σ1, σ2, σ3, es.
  split; [exact Hh|]. split; [exact Ht|]. split; [exact Hn|].
  do 3 (split; [done|]).
  split; [rewrite <- El, <- He; exact Hn3|].
  split; [exact Hes|].
  split.
  { rewrite (bind_run _ _ _ _ _ Hh), (bind_run _ _ _ _ _ Ht),
      (bind_run _ _ _ _ _ Hn). exact Hes. }
  split.
  { replace bound with (zap.context l2); [done|by rewrite El]. }
  exact (emits_length e n l2 σ3 es Hn3 Hes).
Qed.

Lemma factory_task_node_event_witness :
  heap example_state !! 1%positive = Some (service zap.NewExample) ∧
  receiver (Kapacitor_UDFLog "hello") = KapacitorHandler ∧
  ∃ σ3 es,
    (h ← service.NewKapacitorHandler 1%positive;
     t ← KapacitorHandler.WithTaskContext h "t1";
     n ← KapacitorHandler.WithNodeContext t "n7";
     call (Kapacitor_UDFLog "hello") n) example_state
    = Some (tt, mkState (heap σ3) (out example_state ++ es)) ∧
    length es = 1 ∧
    Forall (λ en, zap.bound en
                  = [zap.String "service" "kapacitor"; zap.String "task" "t1";
                     zap.String "node" "n7"]) es.
Proof.
  split; [reflexivity|]. split; [reflexivity|].
  destruct (factory_task_node_event 1%positive zap.NewExample "t1" "n7"
              (Kapacitor_UDFLog "hello") example_state eq_refl eq_refl)
    as (h & t & n & σ1 & σ2 & σ3 & es & _ & _ & _ & _ & _ & _ & _ & _ & H1
        & H2 & [[H3 _]|[_ (p & d & Hd)]]).
  - exists σ3, es. auto.
  - discriminate Hd.
Defined.

(** X6.  Binding [F1] and then [F2] is, for every event method, the same as
    binding [F1 ++ F2] in one call: the two handlers hold equal loggers and
    emit the same entries. *)
Theorem WithContext_fusion ty wc h l F1 F2 σ :
  WithContext ty = Some wc →
  heap σ !! h = Some (handler ty l) →
  ∃ a b c σ1 σ2 σ3 lg,
    wc h F1 σ = Some (a, σ1) ∧ wc a F2 σ1 = Some (b, σ2) ∧
    wc h (F1 ++ F2) σ2 = Some (c, σ3) ∧
    b ≠ c ∧
    heap σ3 !! b = Some (handler ty lg) ∧
    heap σ3 !! c = Some (handler ty lg) ∧
    ∀ e, receiver e = ty →
      ∃ es, emits (call e b) σ3 es ∧ emits (call e c) σ3 es ∧ es ≠ [].
Proof.
  intros ->%WithContext_is_body H.
  destruct (WithContext_body_run ty h l F1 σ H) as (a & Ha & Hfa).
  set (l1 := zap.mkLogger (zap.context l ++ map kv_field F1)) in *.
  set (σ1 := mkState (<[a := handler ty l1]> (heap σ)) (out σ)) in *.
  assert (Ha1 : heap σ1 !! a = Some (handler ty l1))
    by apply lookup_insert_eq.
  destruct (WithContext_body_run ty a l1 F2 σ1 Ha1) as (b & Hb & Hfb).
  set (l2 := zap.mkLogger (zap.context l1 ++ map kv_field F2)) in *.
  set (σ2 := mkState (<[b := handler ty l2]> (heap σ1)) (out σ1)) in *.
  assert (a ≠ h) by congruence.
  assert (Hh1 : heap σ1 !! h = Some (handler ty l))
    by (simpl; by rewrite lookup_insert_ne).
  assert (b ≠ h) by congruence.
  assert (Hh2 : heap σ2 !! h = Some (handler ty l))
    by (simpl; by rewrite lookup_insert_ne).
  assert (Hb2 : heap σ2 !! b = Some (handler ty l2))
    by apply lookup_insert_eq.
  destruct (WithContext_body_run ty h l (F1 ++ F2) σ2 Hh2) as (c & Hc & Hfc).
  set (l3 := zap.mkLogger (zap.context l ++ map kv_field (F1 ++ F2))) in *.
  set (σ3 := mkState (<[c := handler ty l3]> (heap σ2)) (out σ2)) in *.
  assert (c ≠ b) by congruence.
  assert (El : l3 = l2)
    by (unfold l3, l2, l1; simpl; by rewrite map_app, app_assoc).
  assert (Hb3 : heap σ3 !! b = Some (handler ty l2))
    by (simpl; rewrite lookup_insert_ne by done; exact Hb2).
  assert (Hc3 : heap σ3 !! c = Some (handler ty l2))
    by (rewrite <- El; apply lookup_insert_eq).
  exists a, b, c, σ1, σ2, σ3, l2.
  repeat (split; [done|]).
  intros e <-.
  destruct (call_emits e b l2 σ3 Hb3) as (es & He & Hne & _).
  exists es. split; [done|]. split; [|done].
  apply (call_ext e b c σ3 σ3); [by rewrite Hb3, Hc3|done].
Qed.

Lemma WithContext_fusion_witness :
  WithContext SlackHandler = Some SlackHandler.WithContext ∧
  heap example_state !! 2%positive = Some (handler SlackHandler slack_logger) ∧
  ∃ a b c σ1 σ2 σ3 lg,
    SlackHandler.WithContext 2%positive [keyvalue.KV "k1" "v1"] example_state
    = Some (a, σ1) ∧
    SlackHandler.WithContext a [keyvalue.KV "k2" "v2"] σ1 = Some (b, σ2) ∧
    SlackHandler.WithContext 2%positive
      [keyvalue.KV "k1" "v1"; keyvalue.KV "k2" "v2"] σ2 = Some (c, σ3) ∧
    heap σ3 !! b = Some (handler SlackHandler lg) ∧
    heap σ3 !! c = Some (handler SlackHandler lg).
Proof.
  split; [reflexivity|]. split; [reflexivity|].
  destruct (WithContext_fusion SlackHandler SlackHandler.WithContext
              2%positive slack_logger [keyvalue.KV "k1" "v1"]
              [keyvalue.KV "k2" "v2"] example_state eq_refl eq_refl)
    as (a & b & c & σ1 & σ2 & σ3 & lg & H1 & H2 & H3 & _ & H4 & H5 & _).
  exists a, b, c, σ1, σ2, σ3, lg. auto.
Defined.

(** X7.  Event calls do not influence each other: if one call emits [es1]
    and another emits [es2] when each is made alone in a state, then made one
    after the other, in either order, they emit the entries of the first
    followed by the entries of the second. *)
Theorem event_calls_independent e1 e2 h1 h2 σ es1 es2 :
  emits (call e1 h1) σ es1 →
  emits (call e2 h2) σ es2 →
  emits (call e1 h1;; call e2 h2) σ (es1 ++ es2) ∧
  emits (call e2 h2;; call e1 h1) σ (es2 ++ es1).
Proof.
  assert (Hseq : ∀ ea eb ha hb esa esb,
            emits (call ea ha) σ esa → emits (call eb hb) σ esb →
            emits (call ea ha;; call eb hb) σ (esa ++ esb)).
  { intros ea eb ha hb esa esb Ha Hb. unfold emits.
    rewrite (bind_run _ _ _ _ _ Ha).
    pose proof (call_ext eb hb hb σ
                  (mkState (heap σ) (out σ ++ esa)) esb eq_refl Hb) as Hb'.
    unfold emits in Hb'. rewrite Hb'. simpl. by rewrite app_assoc. }
  intros H1 H2. split; by apply Hseq.
Qed.

Lemma event_calls_independent_witness :
  emits (call (Slack_Error "m" (Some "boom")) 2%positive) example_state
    [zap.mkEntry zapcore.ErrorLevel "m" [zap.String "service" "slack"]
       [zap.Error (Some "boom")]] ∧
  emits (call (TaskStore_Debug "d") 4%positive) example_state
    [zap.mkEntry zapcore.DebugLevel "d" [zap.String "service" "task_store"]
       []] ∧
  emits (call (Slack_Error "m" (Some "boom")) 2%positive;;
         call (TaskStore_Debug "d") 4%positive) example_state
    [zap.mkEntry zapcore.ErrorLevel "m" [zap.String "service" "slack"]
       [zap.Error (Some "boom")];
     zap.mkEntry zapcore.DebugLevel "d" [zap.String "service" "task_store"]
       []].
Proof.
  assert (H1 : emits (call (Slack_Error "m" (Some "boom")) 2%positive)
                 example_state
                 [zap.mkEntry zapcore.ErrorLevel "m"
                    [zap.String "service" "slack"] [zap.Error (Some "boom")]])
    by reflexivity.
  assert (H2 : emits (call (TaskStore_Debug "d") 4%positive) example_state
                 [zap.mkEntry zapcore.DebugLevel "d"
                    [zap.String "service" "task_store"] []])
    by reflexivity.
  split; [exact H1|]. split; [exact H2|].
  exact (proj1 (event_calls_independent _ _ _ _ _ _ _ H1 H2)).
Defined.

(** X8.  The eleven methods named [Error] share one contract: on a handler,
    each emits exactly one error entry whose message is the caller's and whose
    own fields are the error field followed by one field per context pair, in
    order (none for the eight handlers whose [Error] takes no pairs); so the
    plain [Error] and the context-taking [Error] called without pairs give the
    same entry for equal bound fields. *)
Theorem Error_methods_contract e msg err ctx h l σ :
  Error_event e = Some (msg, err, ctx) →
  heap σ !! h = Some (handler (receiver e) l) →
  emits (call e h) σ
    [zap.mkEntry zapcore.ErrorLevel msg (zap.context l)
       (zap.Error err :: map kv_field ctx)].
Proof.
  intros He H.
  destruct e; simpl in He; try discriminate; injection He as <- <- <-;
    simpl in *;
    first [ by apply Error_body_emits | by apply log_emits ].
Qed.

Lemma Error_methods_contract_witness :
  Error_event (HTTPD_Error "serve" (Some "closed"))
  = Some ("serve", Some "closed", []) ∧
  heap example_state !! 5%positive = Some (handler HTTPDHandler http_logger) ∧
  emits (call (HTTPD_Error "serve" (Some "closed")) 5%positive) example_state
    [zap.mkEntry zapcore.ErrorLevel "serve" [zap.String "service" "http"]
       [zap.Error (Some "closed")]].
Proof.
  split; [reflexivity|]. split; [reflexivity|].
  apply (Error_methods_contract (HTTPD_Error "serve" (Some "closed")) "serve"
           (Some "closed") [] 5%positive http_logger example_state);
    reflexivity.
Defined.

(** X9.  [RecoveryError] attaches the eleven request fields of [HTTP], same
    keys, same order, same values for the same request, after one leading
    field [err]; the access entry is an info entry, the recovery entry an
    error entry with the caller's message. *)
Theorem RecoveryError_extends_HTTP h l msg err host username start method uri
    proto status referer userAgent reqID duration σ :
  heap σ !! h = Some (handler HTTPDHandler l) →
  ∃ flds,
    length flds = 11 ∧
    emits (HTTPDHandler.HTTP h host username start method uri proto status
             referer userAgent reqID duration) σ
      [zap.mkEntry zapcore.InfoLevel "???" (zap.context l) flds] ∧
    emits (HTTPDHandler.RecoveryError h msg err host username start method uri
             proto status referer userAgent reqID duration) σ
      [zap.mkEntry zapcore.ErrorLevel msg (zap.context l)
         (zap.String "err" err :: flds)].
Proof.
  intros H. eexists. split; [|split; by apply log_emits]. reflexivity.
Qed.

Lemma RecoveryError_extends_HTTP_witness :
  heap example_state !! 5%positive = Some (handler HTTPDHandler http_logger) ∧
  ∃ flds,
    length flds = 11 ∧
    emits (HTTPDHandler.RecoveryError 5%positive "panic" "nil map" "h" "u"
             0%Z "GET" "/" "HTTP/1.1" 500%Z "" "ua" "id" 7%Z) example_state
      [zap.mkEntry zapcore.ErrorLevel "panic" [zap.String "service" "http"]
         (zap.String "err" "nil map" :: flds)].
Proof.
  split; [reflexivity|].
  destruct (RecoveryError_extends_HTTP 5%positive http_logger "panic"
              "nil map" "h" "u" 0%Z "GET" "/" "HTTP/1.1" 500%Z "" "ua" "id"
              7%Z example_state eq_refl)
    as (flds & H1 & _ & H2).
  exists flds. auto.
Defined.

(** X10.  Two calls of accessors of one factory, of the same accessor or of
    different ones, return two distinct handlers, each of its accessor's type
    and bound to its own [service] field; the first handler and the factory
    are what they were after the second call, and nothing is emitted. *)
Theorem accessors_make_distinct_handlers ty1 acc1 n1 ty2 acc2 n2 s root σ :
  accessor ty1 = Some (acc1, n1) →
  accessor ty2 = Some (acc2, n2) →
  heap σ !! s = Some (service root) →
  ∃ p q σ1 σ2,
    acc1 s σ = Some (p, σ1) ∧ acc2 s σ1 = Some (q, σ2) ∧
    p ≠ q ∧ p ≠ s ∧ q ≠ s ∧
    heap σ2 !! p
    = Some (handler ty1
              (zap.mkLogger (zap.context root ++ [zap.String "service" n1]))) ∧
    heap σ2 !! q
    = Some (handler ty2
              (zap.mkLogger (zap.context root ++ [zap.String "service" n2]))) ∧
    heap σ2 !! s = Some (service root) ∧
    out σ2 = out σ.
Proof.
  intros H1 H2 H.
  destruct (accessor_run ty1 acc1 n1 s root σ H1 H) as (p & Hp & Hfp).
  set (σ1 := mkState _ (out σ)) in Hp.
  assert (p ≠ s) by congruence.
  assert (Hs1 : heap σ1 !! s = Some (service root))
    by (simpl; by rewrite lookup_insert_ne).
  destruct (accessor_run ty2 acc2 n2 s root σ1 H2 Hs1) as (q & Hq & Hfq).
  set (σ2 := mkState _ (out σ1)) in Hq.
  assert (q ≠ s) by congruence.
  assert (q ≠ p)
    by (intros ->; simpl in Hfq; by rewrite lookup_insert_eq in Hfq).
  exists p, q, σ1, σ2. split; [exact Hp|]. split; [exact Hq|].
  repeat (split; [done|]). simpl.
  split; [by rewrite lookup_insert_ne, lookup_insert_eq|].
  split; [by rewrite lookup_insert_eq|].
  split; [by rewrite !lookup_insert_ne|done].
Qed.

Lemma accessors_make_distinct_handlers_witness :
  accessor HTTPDHandler = Some (service.NewHTTPDHandler, "http") ∧
  heap example_state !! 1%positive = Some (service zap.NewExample) ∧
  ∃ p q σ1 σ2,
    service.NewHTTPDHandler 1%positive example_state = Some (p, σ1) ∧
    service.NewHTTPDHandler 1%positive σ1 = Some (q, σ2) ∧
    p ≠ q.
Proof.
  split; [reflexivity|]. split; [reflexivity|].
  destruct (accessors_make_distinct_handlers HTTPDHandler
              service.NewHTTPDHandler "http" HTTPDHandler
              service.NewHTTPDHandler "http" 1%positive zap.NewExample
              example_state eq_refl eq_refl eq_refl)
    as (p & q & σ1 & σ2 & H1 & H2 & H3 & _).
  exists p, q, σ1, σ2. auto.
Defined.

(** X11.  A chain of any number of [WithContext] calls returns a handler
    bound to the first receiver's fields followed by the fields of all pairs
    of the chain, in call order; every object of the heap, the first receiver
    among them, is what it was, nothing is emitted, and the result is a new
    object unless the chain is empty. *)
Theorem WithContext_chain_appends ty wc Fs h l σ :
  WithContext ty = Some wc →
  heap σ !! h = Some (handler ty l) →
  ∃ b σ' lb,
    WithContext_chain wc h Fs σ = Some (b, σ') ∧
    heap σ' !! b = Some (handler ty lb) ∧
    zap.context lb = zap.context l ++ map kv_field (concat Fs) ∧
    (∀ p o, heap σ !! p = Some o → heap σ' !! p = Some o) ∧
    out σ' = out σ ∧
    (Fs = [] ∧ b = h ∨ Fs ≠ [] ∧ heap σ !! b = None).
Proof.
  intros Hwc. pose proof (WithContext_is_body _ _ Hwc) as ->. clear Hwc.
  revert h l σ. induction Fs as [|F Fs IH]; intros h l σ H.
  - exists h, σ, l. simpl. rewrite app_nil_r. auto 10.
  - destruct (WithContext_body_run ty h l F σ H) as (a & Ha & Hfa).
    set (l1 := zap.mkLogger (zap.context l ++ map kv_field F)) in *.
    set (σ1 := mkState (<[a := handler ty l1]> (heap σ)) (out σ)) in *.
    assert (Ha1 : heap σ1 !! a = Some (handler ty l1))
      by apply lookup_insert_eq.
    destruct (IH a l1 σ1 Ha1) as (b & σ' & lb & Hb & Hlb & Hctx & Hpres & Hout
                                  & Hnew).
    exists b, σ', lb. simpl. rewrite (bind_run _ _ _ _ _ Ha).
    split; [exact Hb|]. split; [exact Hlb|].
    split; [rewrite Hctx; simpl; by rewrite map_app, app_assoc|].
    split.
    { intros p o Hp. apply Hpres. simpl.
      rewrite lookup_insert_ne; [done|congruence]. }
    split; [by rewrite Hout|].
    right. split; [done|].
    destruct Hnew as [[_ ->]|[_ Hnone]]; [done|].
    simpl in Hnone. apply lookup_insert_None in Hnone. tauto.
Qed.

Lemma WithContext_chain_appends_witness :
  WithContext SlackHandler = Some SlackHandler.WithContext ∧
  heap example_state !! 2%positive = Some (handler SlackHandler slack_logger) ∧
  ∃ b σ' lb,
    WithContext_chain SlackHandler.WithContext 2%positive
      [[keyvalue.KV "a" "1"]; []; [keyvalue.KV "b" "2"; keyvalue.KV "a" "3"]]
      example_state = Some (b, σ') ∧
    heap σ' !! b = Some (handler SlackHandler lb) ∧
    zap.context lb
    = [zap.String "service" "slack"; zap.String "a" "1"; zap.String "b" "2";
       zap.String "a" "3"].
Proof.
  split; [reflexivity|]. split; [reflexivity|].
  destruct (WithContext_chain_appends SlackHandler SlackHandler.WithContext
              [[keyvalue.KV "a" "1"]; [];
               [keyvalue.KV "b" "2"; keyvalue.KV "a" "3"]]
              2%positive slack_logger example_state eq_refl eq_refl)
    as (b & σ' & lb & H1 & H2 & H3 & _).
  exists b, σ', lb. auto.
Defined.

(** X12.  [NewService] cannot fail, and a handler taken from a service just
    made has exactly one bound field, [service=<name>]: the example logger the
    service starts from has none.  Neither construction emits anything. *)
Theorem NewService_handler_has_one_field ty acc name σ :
  accessor ty = Some (acc, name) →
  ∃ s p σ1 σ2,
    NewService σ = Some (s, σ1) ∧ acc s σ1 = Some (p, σ2) ∧
    heap σ !! s = None ∧ p ≠ s ∧
    heap σ2 !! p
    = Some (handler ty (zap.mkLogger [zap.String "service" name])) ∧
    (∀ q o, heap σ !! q = Some o → heap σ2 !! q = Some o) ∧
    out σ2 = out σ.
Proof.
  intros Hacc.
  destruct (new_run (service zap.NewExample) σ) as (s & Hs & Hfs).
  set (σ1 := mkState _ (out σ)) in Hs.
  assert (Hs1 : heap σ1 !! s = Some (service zap.NewExample))
    by apply lookup_insert_eq.
  destruct (accessor_run ty acc name s zap.NewExample σ1 Hacc Hs1)
    as (p & Hp & Hfp).
  eexists s, p, σ1, _. split; [exact Hs|]. split; [exact Hp|].
  assert (p ≠ s) by congruence.
  repeat (split; [done|]). simpl.
  split; [by rewrite lookup_insert_eq|]. split; [|done].
  intros q o Hq.
  assert (q ≠ s) by congruence.
  assert (q ≠ p)
    by (intros ->; simpl in Hfp; rewrite lookup_insert_ne in Hfp by done;
        congruence).
  by rewrite !lookup_insert_ne.
Qed.

Lemma NewService_handler_has_one_field_witness :
  accessor UDFServiceHandler = Some (service.NewUDFServiceHandler, "udf") ∧
  ∃ s p σ1 σ2,
    NewService (mkState ∅ []) = Some (s, σ1) ∧
    service.NewUDFServiceHandler s σ1 = Some (p, σ2) ∧
    heap σ2 !! p
    = Some (handler UDFServiceHandler
              (zap.mkLogger [zap.String "service" "udf"])).
Proof.
  split; [reflexivity|].
  destruct (NewService_handler_has_one_field UDFServiceHandler
              service.NewUDFServiceHandler "udf" (mkState ∅ []) eq_refl)
    as (s & p & σ1 & σ2 & H1 & H2 & _ & _ & H3 & _).
  exists s, p, σ1, σ2. auto.
Defined.
